(** * sbpl_lattice_planner: the adapter between a costmap and the SBPL search

    A shallow embedding of [sbpl_lattice_planner.cpp].  The planner object is a
    record that is threaded through every member function; the SBPL engine, the
    costmap, the parameter server, libm and the message library are external
    collaborators and appear as interfaces.  [double] is the kernel's binary64
    ([PrimFloat.float]); [unsigned char], [int], [unsigned int] and [size_t]
    are [Z] with the conversions of the source written out. *)

From Stdlib Require Import ZArith Lia Floats.
From stdpp Require Import base option list gmap strings.

Local Open Scope Z_scope.

(** ** Integer conversions *)

(** [(unsigned char) v] *)
Definition to_uchar (v : Z) : Z := v mod 256.

(** [(size_t) v] on a 64-bit target *)
Definition to_size_t (v : Z) : Z := v mod 2 ^ 64.

(** [(int) v]: the low 32 bits read as a two's complement number *)
Definition to_int (v : Z) : Z := (v + 2 ^ 31) mod 2 ^ 32 - 2 ^ 31.

(** [(double) n] for a loop counter [n] *)
Definition to_double (n : Z) : float := PrimFloat.of_uint63 (Uint63.of_Z n).

(** ** Messages *)

Record Time := { sec : Z; nsec : Z }.

Record Header := { seq : Z; stamp : Time; frame_id : string }.

Record Point := { pt_x : float; pt_y : float; pt_z : float }.

Record Quaternion := { q_x : float; q_y : float; q_z : float; q_w : float }.

Record Pose := { position : Point; orientation : Quaternion }.

Record PoseStamped := { header : Header; pose : Pose }.

(** The value of a default-constructed message: every field zero or empty. *)
Definition Time_zero : Time := {| sec := 0; nsec := 0 |}.
Definition Header_default : Header :=
  {| seq := 0; stamp := Time_zero; frame_id := "" |}.
Definition Point_default : Point := {| pt_x := 0; pt_y := 0; pt_z := 0 |}.
Definition Quaternion_default : Quaternion :=
  {| q_x := 0; q_y := 0; q_z := 0; q_w := 0 |}.
Definition Pose_default : Pose :=
  {| position := Point_default; orientation := Quaternion_default |}.
Definition PoseStamped_default : PoseStamped :=
  {| header := Header_default; pose := Pose_default |}.

(** [geometry_msgs::operator==(const Point&, const Point&)], lines 54-57. *)
Definition Point_eq (p1 p2 : Point) : bool :=
  PrimFloat.eqb (pt_x p1) (pt_x p2) && PrimFloat.eqb (pt_y p1) (pt_y p2)
  && PrimFloat.eqb (pt_z p1) (pt_z p2).

(** [std::vector<Point>::operator!=], element-wise through [Point_eq]. *)
Fixpoint footprint_eq (f1 f2 : list Point) : bool :=
  match f1, f2 with
  | [], [] => true
  | p1 :: r1, p2 :: r2 => Point_eq p1 p2 && footprint_eq r1 r2
  | _, _ => false
  end.

Definition footprint_ne (f1 f2 : list Point) : bool := negb (footprint_eq f1 f2).

(** ** External collaborators *)

(** The sentinels of [costmap_2d/cost_values.h].  The header belongs to the
    costmap package, so the three values are parameters of the development. *)
Class CostValues := {
  NO_INFORMATION : Z;
  LETHAL_OBSTACLE : Z;
  INSCRIBED_INFLATED_OBSTACLE : Z
}.

(** What the cost mapper relies on: the sentinels are distinct non-zero
    bytes. *)
Record sentinels_wf `{CostValues} : Prop := {
  lethal_byte : 0 < LETHAL_OBSTACLE < 256;
  inscribed_byte : 0 < INSCRIBED_INFLATED_OBSTACLE < 256;
  no_information_byte : 0 < NO_INFORMATION < 256;
  lethal_inscribed : LETHAL_OBSTACLE ≠ INSCRIBED_INFLATED_OBSTACLE;
  lethal_no_information : LETHAL_OBSTACLE ≠ NO_INFORMATION;
  inscribed_no_information : INSCRIBED_INFLATED_OBSTACLE ≠ NO_INFORMATION
}.

(** The values the costmap package ships. *)
Definition costmap_2d_values : CostValues :=
  {| NO_INFORMATION := 255; LETHAL_OBSTACLE := 254;
     INSCRIBED_INFLATED_OBSTACLE := 253 |}.

(** libm, tf, tf2, ros::Time and the generated message comparison. *)
Class MsgLib := {
  (** [std::atan2(y, x)] *)
  atan2 : float → float → float;
  (** [tf::createQuaternionMsgFromYaw(yaw)] *)
  createQuaternionMsgFromYaw : float → Quaternion;
  (** [tf2::Quaternion::setRPY(0, 0, yaw)] read back with getX .. getW *)
  setRPY_yaw : float → Quaternion;
  (** [(a - b).toSec()] on two stamps *)
  elapsed_toSec : Time → Time → float;
  (** [operator!=] on two [geometry_msgs::PoseStamped] *)
  PoseStamped_ne : PoseStamped → PoseStamped → bool
}.

(** [EnvNAVXYTHETALAT3Dpt_t] *)
Record EnvNAVXYTHETALAT3Dpt_t := { lat_x : float; lat_y : float; lat_theta : float }.

(** [nav2dcell_t] *)
Definition nav2dcell_t : Type := Z * Z.

(** A call that may end in [throw new SBPL_Exception]. *)
Inductive outcome (A : Type) : Type :=
  | Returns (a : A)
  | Throws.
Arguments Returns {A} a.
Arguments Throws {A}.

(** Every call the adapter makes on [env_] and [planner_], in order. *)
Inductive EngineCall : Type :=
  | Call_delete
  | Call_new_Environment
  | Call_SetEnvParameter (name : string) (value : Z)
  | Call_InitializeEnv (width height : Z) (perimeterptsV : list (float * float))
      (cellsize nominalvel timetoturn : float) (obsthresh : Z)
      (primitive_filename : string)
  | Call_new_Planner (planner_type : string) (forward_search : bool)
  | Call_UpdateCost (ix iy cost : Z)
  | Call_SetStart (sx sy theta : float)
  | Call_set_start (id : Z)
  | Call_SetGoal (gx gy theta : float)
  | Call_set_goal (id : Z)
  | Call_costs_changed (changedcellsV : list nav2dcell_t)
  | Call_force_planning_from_scratch
  | Call_set_initialsolution_eps (eps : float)
  | Call_set_search_mode (first_solution : bool)
  | Call_replan (allocated_time : float)
  | Call_ConvertStateIDPathintoXYThetaPath (ids : list Z)
  | Call_get_stats.

(** The five statistics accessors of the planner, read together. *)
Record EngineStats := {
  n_expands : Z;
  initial_eps_planning_time : float;
  final_eps_planning_time : float;
  n_expands_init_solution : Z;
  final_epsilon : float
}.

(** The opaque search engine.  Its answers may depend on everything it has been
    told so far, so each operation reads the history of calls, oldest first,
    the call being answered last (its arguments are in that last entry). *)
Class SBPL := {
  SetEnvParameter : list EngineCall → bool;
  InitializeEnv : list EngineCall → outcome bool;
  SetStart : list EngineCall → outcome Z;
  set_start : list EngineCall → outcome Z;
  SetGoal : list EngineCall → outcome Z;
  set_goal : list EngineCall → outcome Z;
  costs_changed : list EngineCall → outcome unit;
  force_planning_from_scratch : list EngineCall → outcome unit;
  (** [replan(allocated, &ids, &cost)]: return value, ids, cost *)
  replan : list EngineCall → outcome (Z * list Z * Z);
  ConvertStateIDPathintoXYThetaPath :
    list EngineCall → outcome (list EnvNAVXYTHETALAT3Dpt_t);
  get_stats : list EngineCall → EngineStats
}.

(** [costmap_2d::Costmap2D] as read during one call. *)
Record Costmap2D := {
  getSizeInCellsX : Z;
  getSizeInCellsY : Z;
  getResolution : float;
  getOriginX : float;
  getOriginY : float;
  getCost : Z → Z → Z
}.

(** The private parameters of the node, defaults applied. *)
Record Params := {
  param_planner_type : string;
  param_allocated_time : float;
  param_initial_epsilon : float;
  param_environment_type : string;
  param_forward_search : bool;
  param_primitive_filename : string;
  param_force_scratch_limit : Z;
  param_smooth_window : Z;
  param_nominalvel_mpersecs : float;
  param_timetoturn45degsinplace_secs : float;
  param_lethal_obstacle : Z
}.

(** [costmap_2d::Costmap2DROS] and the clock, as seen by one planning call. *)
Record Costmap2DROS := {
  (** [getRobotPose(pose)]: [None] when it returns false *)
  getRobotPose : option PoseStamped;
  getCostmap : Costmap2D;
  getRobotFootprint : list Point;
  (** the plugins of the layered costmap: [Some c] is an inflation layer whose
      [computeCost] at the circumscribed radius is [c], [None] another layer *)
  getPlugins : list (option Z);
  getGlobalFrameID : string;
  (** [ros::Time::now()] *)
  now : Time;
  private_nh : Params
}.

(** What the node publishes. *)
Record SBPLLatticePlannerStats := {
  stats_initial_epsilon : float;
  stats_plan_to_first_solution : bool;
  stats_final_number_of_expands : Z;
  stats_allocated_time : float;
  stats_time_to_first_solution : float;
  stats_actual_time : float;
  stats_number_of_expands_initial_solution : Z;
  stats_final_epsilon : float;
  stats_solution_cost : Z;
  stats_path_size : Z;
  stats_start : PoseStamped;
  stats_goal : PoseStamped
}.

Inductive Publication : Type :=
  | plan_pub (frame : string) (t : Time) (poses : list PoseStamped)
  | rough_plan_pub (frame : string) (t : Time) (poses : list PoseStamped)
  | stats_pub (s : SBPLLatticePlannerStats).

(** ** The planner object *)

Record SBPLLatticePlanner := {
  initialized_ : bool;
  planner_type_ : string;
  allocated_time_ : float;
  initial_epsilon_ : float;
  environment_type_ : string;
  forward_search_ : bool;
  primitive_filename_ : string;
  force_scratch_limit_ : Z;
  smooth_window_ : Z;
  lethal_obstacle_ : Z;
  inscribed_inflated_obstacle_ : Z;
  sbpl_cost_multiplier_ : Z;
  circumscribed_cost_ : Z;
  current_env_width_ : Z;
  current_env_height_ : Z;
  footprint_ : list Point;
  (** the plan cache *)
  previous_plan_ : list PoseStamped;
  previous_goal_ : PoseStamped;
  robot_pose_when_plan_was_created_ : PoseStamped;
  (** the cost grid held by [env_]: a cell that was never written reads 0 *)
  Grid2D : gmap (Z * Z) Z;
  (** every call made on [env_] and [planner_] so far, oldest first *)
  engine_calls : list EngineCall;
  (** every message published so far, oldest first *)
  published : list Publication
}.

(** Field updates of the planner object. *)
Definition set_initialized (this : SBPLLatticePlanner) (v : bool) : SBPLLatticePlanner :=
  {| initialized_ := v; planner_type_ := planner_type_ this;
     allocated_time_ := allocated_time_ this; initial_epsilon_ := initial_epsilon_ this;
     environment_type_ := environment_type_ this; forward_search_ := forward_search_ this;
     primitive_filename_ := primitive_filename_ this;
     force_scratch_limit_ := force_scratch_limit_ this; smooth_window_ := smooth_window_ this;
     lethal_obstacle_ := lethal_obstacle_ this;
     inscribed_inflated_obstacle_ := inscribed_inflated_obstacle_ this;
     sbpl_cost_multiplier_ := sbpl_cost_multiplier_ this;
     circumscribed_cost_ := circumscribed_cost_ this;
     current_env_width_ := current_env_width_ this;
     current_env_height_ := current_env_height_ this; footprint_ := footprint_ this;
     previous_plan_ := previous_plan_ this; previous_goal_ := previous_goal_ this;
     robot_pose_when_plan_was_created_ := robot_pose_when_plan_was_created_ this;
     Grid2D := Grid2D this; engine_calls := engine_calls this;
     published := published this |}.

Definition set_previous_plan (this : SBPLLatticePlanner) (v : list PoseStamped)
  : SBPLLatticePlanner :=
  {| initialized_ := initialized_ this; planner_type_ := planner_type_ this;
     allocated_time_ := allocated_time_ this; initial_epsilon_ := initial_epsilon_ this;
     environment_type_ := environment_type_ this; forward_search_ := forward_search_ this;
     primitive_filename_ := primitive_filename_ this;
     force_scratch_limit_ := force_scratch_limit_ this; smooth_window_ := smooth_window_ this;
     lethal_obstacle_ := lethal_obstacle_ this;
     inscribed_inflated_obstacle_ := inscribed_inflated_obstacle_ this;
     sbpl_cost_multiplier_ := sbpl_cost_multiplier_ this;
     circumscribed_cost_ := circumscribed_cost_ this;
     current_env_width_ := current_env_width_ this;
     current_env_height_ := current_env_height_ this; footprint_ := footprint_ this;
     previous_plan_ := v; previous_goal_ := previous_goal_ this;
     robot_pose_when_plan_was_created_ := robot_pose_when_plan_was_created_ this;
     Grid2D := Grid2D this; engine_calls := engine_calls this;
     published := published this |}.

Definition set_previous_goal (this : SBPLLatticePlanner) (v : PoseStamped)
  : SBPLLatticePlanner :=
  {| initialized_ := initialized_ this; planner_type_ := planner_type_ this;
     allocated_time_ := allocated_time_ this; initial_epsilon_ := initial_epsilon_ this;
     environment_type_ := environment_type_ this; forward_search_ := forward_search_ this;
     primitive_filename_ := primitive_filename_ this;
     force_scratch_limit_ := force_scratch_limit_ this; smooth_window_ := smooth_window_ this;
     lethal_obstacle_ := lethal_obstacle_ this;
     inscribed_inflated_obstacle_ := inscribed_inflated_obstacle_ this;
     sbpl_cost_multiplier_ := sbpl_cost_multiplier_ this;
     circumscribed_cost_ := circumscribed_cost_ this;
     current_env_width_ := current_env_width_ this;
     current_env_height_ := current_env_height_ this; footprint_ := footprint_ this;
     previous_plan_ := previous_plan_ this; previous_goal_ := v;
     robot_pose_when_plan_was_created_ := robot_pose_when_plan_was_created_ this;
     Grid2D := Grid2D this; engine_calls := engine_calls this;
     published := published this |}.

Definition set_robot_pose_when_plan_was_created (this : SBPLLatticePlanner)
  (v : PoseStamped) : SBPLLatticePlanner :=
  {| initialized_ := initialized_ this; planner_type_ := planner_type_ this;
     allocated_time_ := allocated_time_ this; initial_epsilon_ := initial_epsilon_ this;
     environment_type_ := environment_type_ this; forward_search_ := forward_search_ this;
     primitive_filename_ := primitive_filename_ this;
     force_scratch_limit_ := force_scratch_limit_ this; smooth_window_ := smooth_window_ this;
     lethal_obstacle_ := lethal_obstacle_ this;
     inscribed_inflated_obstacle_ := inscribed_inflated_obstacle_ this;
     sbpl_cost_multiplier_ := sbpl_cost_multiplier_ this;
     circumscribed_cost_ := circumscribed_cost_ this;
     current_env_width_ := current_env_width_ this;
     current_env_height_ := current_env_height_ this; footprint_ := footprint_ this;
     previous_plan_ := previous_plan_ this; previous_goal_ := previous_goal_ this;
     robot_pose_when_plan_was_created_ := v;
     Grid2D := Grid2D this; engine_calls := engine_calls this;
     published := published this |}.

(** The engine side of the object: the mirror and the call history. *)
Definition set_engine (this : SBPLLatticePlanner) (grid : gmap (Z * Z) Z)
  (calls : list EngineCall) : SBPLLatticePlanner :=
  {| initialized_ := initialized_ this; planner_type_ := planner_type_ this;
     allocated_time_ := allocated_time_ this; initial_epsilon_ := initial_epsilon_ this;
     environment_type_ := environment_type_ this; forward_search_ := forward_search_ this;
     primitive_filename_ := primitive_filename_ this;
     force_scratch_limit_ := force_scratch_limit_ this; smooth_window_ := smooth_window_ this;
     lethal_obstacle_ := lethal_obstacle_ this;
     inscribed_inflated_obstacle_ := inscribed_inflated_obstacle_ this;
     sbpl_cost_multiplier_ := sbpl_cost_multiplier_ this;
     circumscribed_cost_ := circumscribed_cost_ this;
     current_env_width_ := current_env_width_ this;
     current_env_height_ := current_env_height_ this; footprint_ := footprint_ this;
     previous_plan_ := previous_plan_ this; previous_goal_ := previous_goal_ this;
     robot_pose_when_plan_was_created_ := robot_pose_when_plan_was_created_ this;
     Grid2D := grid; engine_calls := calls;
     published := published this |}.

Definition set_published (this : SBPLLatticePlanner) (v : list Publication)
  : SBPLLatticePlanner :=
  {| initialized_ := initialized_ this; planner_type_ := planner_type_ this;
     allocated_time_ := allocated_time_ this; initial_epsilon_ := initial_epsilon_ this;
     environment_type_ := environment_type_ this; forward_search_ := forward_search_ this;
     primitive_filename_ := primitive_filename_ this;
     force_scratch_limit_ := force_scratch_limit_ this; smooth_window_ := smooth_window_ this;
     lethal_obstacle_ := lethal_obstacle_ this;
     inscribed_inflated_obstacle_ := inscribed_inflated_obstacle_ this;
     sbpl_cost_multiplier_ := sbpl_cost_multiplier_ this;
     circumscribed_cost_ := circumscribed_cost_ this;
     current_env_width_ := current_env_width_ this;
     current_env_height_ := current_env_height_ this; footprint_ := footprint_ this;
     previous_plan_ := previous_plan_ this; previous_goal_ := previous_goal_ this;
     robot_pose_when_plan_was_created_ := robot_pose_when_plan_was_created_ this;
     Grid2D := Grid2D this; engine_calls := engine_calls this;
     published := v |}.

(** [env_->GetMapCost(ix, iy)] *)
Definition GetMapCost (grid : gmap (Z * Z) Z) (ix iy : Z) : Z :=
  default 0 (grid !! (ix, iy)).

(** [env_->UpdateCost(ix, iy, cost)] on the mirror *)
Definition UpdateCost (grid : gmap (Z * Z) Z) (ix iy cost : Z) : gmap (Z * Z) Z :=
  <[(ix, iy) := cost]> grid.

(** The plan cache: the previous plan, the previous goal and the robot pose
    recorded when that plan was made. *)
Definition cache (this : SBPLLatticePlanner)
  : list PoseStamped * PoseStamped * PoseStamped :=
  (previous_plan_ this, previous_goal_ this, robot_pose_when_plan_was_created_ this).

(** The fields that only [initialize] writes. *)
Definition configuration (this : SBPLLatticePlanner) :=
  (initialized_ this, planner_type_ this, allocated_time_ this, initial_epsilon_ this,
   environment_type_ this, forward_search_ this, primitive_filename_ this,
   force_scratch_limit_ this, smooth_window_ this, lethal_obstacle_ this,
   inscribed_inflated_obstacle_ this, sbpl_cost_multiplier_ this,
   circumscribed_cost_ this, current_env_width_ this, current_env_height_ this,
   footprint_ this).

(** ** The state change query *)

(** [class LatticeSCQ], lines 62-90: the changed cells it was built for and the
    two lazily filled vectors. *)
Record LatticeSCQ := {
  changedcellsV_ : list nav2dcell_t;
  predsOfChangedCells_ : list Z;
  succsOfChangedCells_ : list Z
}.

(** The constructor, lines 65-68. *)
Definition new_LatticeSCQ (changedcellsV : list nav2dcell_t) : LatticeSCQ :=
  {| changedcellsV_ := changedcellsV; predsOfChangedCells_ := [];
     succsOfChangedCells_ := [] |}.

(** [LatticeSCQ::getPredecessors], lines 71-76.  [GetPredsofChangedEdges] is
    the environment's answer for a list of cells, stored in the vector, which
    is empty whenever the environment is asked.  The result is the vector, the
    object after the call, and whether the environment was asked. *)
Definition getPredecessors (GetPredsofChangedEdges : list nav2dcell_t → list Z)
  (scq : LatticeSCQ) : list Z * LatticeSCQ * bool :=
  if bool_decide (predsOfChangedCells_ scq = [])
     && negb (bool_decide (changedcellsV_ scq = []))
  then
    let preds := GetPredsofChangedEdges (changedcellsV_ scq) in
    (preds,
     {| changedcellsV_ := changedcellsV_ scq; predsOfChangedCells_ := preds;
        succsOfChangedCells_ := succsOfChangedCells_ scq |}, true)
  else (predsOfChangedCells_ scq, scq, false).

(** [LatticeSCQ::getSuccessors], lines 79-84. *)
Definition getSuccessors (GetSuccsofChangedEdges : list nav2dcell_t → list Z)
  (scq : LatticeSCQ) : list Z * LatticeSCQ * bool :=
  if bool_decide (succsOfChangedCells_ scq = [])
     && negb (bool_decide (changedcellsV_ scq = []))
  then
    let succs := GetSuccsofChangedEdges (changedcellsV_ scq) in
    (succs,
     {| changedcellsV_ := changedcellsV_ scq;
        predsOfChangedCells_ := predsOfChangedCells_ scq;
        succsOfChangedCells_ := succs |}, true)
  else (succsOfChangedCells_ scq, scq, false).

(** The cells of the costmap in the order in which the two nested loops visit
    them. *)
Definition grid_cells (costmap : Costmap2D) : list nav2dcell_t :=
  seqZ 0 (getSizeInCellsX costmap) ≫=
    (λ ix, (λ iy, (ix, iy)) <$> seqZ 0 (getSizeInCellsY costmap)).

Section Planner.
Context `{CostValues} `{MsgLib} `{SBPL}.

(** ** Cost mapper *)

(** [SBPLLatticePlanner::costMapCostToSBPLCost], lines 238-253.  The quotient
    is the C++ one whenever [sbpl_cost_multiplier_] is not 0. *)
Definition costMapCostToSBPLCost (this : SBPLLatticePlanner) (newcost : Z) : Z :=
  if newcost =? LETHAL_OBSTACLE then lethal_obstacle_ this
  else if newcost =? INSCRIBED_INFLATED_OBSTACLE then inscribed_inflated_obstacle_ this
  else if (newcost =? 0) || (newcost =? NO_INFORMATION) then 0
  else
    let sbpl_cost := to_uchar (newcost / sbpl_cost_multiplier_ this) in
    if sbpl_cost =? 0 then 1 else sbpl_cost.

(** [SBPLLatticePlanner::publishStats], lines 255-275. *)
Definition publishStats (this : SBPLLatticePlanner) (solution_cost solution_size : Z)
  (start goal : PoseStamped) : SBPLLatticePlanner :=
  let calls := engine_calls this ++ [Call_get_stats] in
  let s := get_stats calls in
  let stats :=
    {| stats_initial_epsilon := initial_epsilon_ this;
       stats_plan_to_first_solution := false;
       stats_final_number_of_expands := n_expands s;
       stats_allocated_time := allocated_time_ this;
       stats_time_to_first_solution := initial_eps_planning_time s;
       stats_actual_time := final_eps_planning_time s;
       stats_number_of_expands_initial_solution := n_expands_init_solution s;
       stats_final_epsilon := final_epsilon s;
       stats_solution_cost := solution_cost;
       stats_path_size := solution_size;
       stats_start := start;
       stats_goal := goal |} in
  set_published
    (set_engine this (Grid2D this) calls)
    (published this ++ [stats_pub stats]).

(** [SBPLLatticePlanner::computeCircumscribedCost], lines 277-301: the cost of
    the last inflation layer among the plugins, 0 when there is none. *)
Definition computeCircumscribedCost (this : SBPLLatticePlanner) (costmap_ros_ : Costmap2DROS)
  : Z :=
  fold_left
    (fun result layer =>
       match layer with
       | None => result
       | Some c => costMapCostToSBPLCost this c
       end)
    (getPlugins costmap_ros_) 0.

(** [distanceBetweenPoses], lines 303-308. *)
Definition distanceBetweenPoses (one two : PoseStamped) : float :=
  let dx := (pt_x (position (pose one)) - pt_x (position (pose two)))%float in
  let dy := (pt_y (position (pose one)) - pt_y (position (pose two)))%float in
  PrimFloat.sqrt (dx * dx + dy * dy)%float.

(** Both scans of the grid: [for ix < getSizeInCellsX()] around
    [for iy < getSizeInCellsY()], lines 206-207 and 470-472. *)
Definition for_each_cell {S : Type} (costmap : Costmap2D) (body : Z → Z → S → S)
  (st : S) : S :=
  fold_left
    (fun st ix =>
       fold_left (fun st iy => body ix iy st) (seqZ 0 (getSizeInCellsY costmap)) st)
    (seqZ 0 (getSizeInCellsX costmap)) st.

(** The body of the seeding loop of [initialize], line 208. *)
Definition seed_cell (this : SBPLLatticePlanner) (costmap : Costmap2D) (ix iy : Z)
  (st : gmap (Z * Z) Z * list EngineCall) : gmap (Z * Z) Z * list EngineCall :=
  let cost := costMapCostToSBPLCost this (getCost costmap ix iy) in
  (UpdateCost st.1 ix iy cost, st.2 ++ [Call_UpdateCost ix iy cost]).

(** [SBPLLatticePlanner::initialize], lines 102-234.  [None] is the end of the
    process: one of the [exit(1)], or the integer division by zero of line 126
    when the inscribed threshold is 0.  The cache is not touched. *)
Definition initialize (this : SBPLLatticePlanner) (costmap_ros : Costmap2DROS)
  : option SBPLLatticePlanner :=
  if initialized_ this then Some this
  else
    let nh := private_nh costmap_ros in
    let costmap := getCostmap costmap_ros in
    let lethal_obstacle := to_uchar (param_lethal_obstacle nh) in
    let inscribed_inflated_obstacle := to_uchar (lethal_obstacle - 1) in
    if inscribed_inflated_obstacle =? 0 then None
    else
      let sbpl_cost_multiplier :=
        to_uchar (INSCRIBED_INFLATED_OBSTACLE / inscribed_inflated_obstacle + 1) in
      let footprint := getRobotFootprint costmap_ros in
      if negb (String.eqb "XYThetaLattice" (param_environment_type nh)) then None
      else
        let mk circumscribed width height grid calls initialized :=
          {| initialized_ := initialized;
             planner_type_ := param_planner_type nh;
             allocated_time_ := param_allocated_time nh;
             initial_epsilon_ := param_initial_epsilon nh;
             environment_type_ := param_environment_type nh;
             forward_search_ := param_forward_search nh;
             primitive_filename_ := param_primitive_filename nh;
             force_scratch_limit_ := param_force_scratch_limit nh;
             smooth_window_ := param_smooth_window nh;
             lethal_obstacle_ := lethal_obstacle;
             inscribed_inflated_obstacle_ := inscribed_inflated_obstacle;
             sbpl_cost_multiplier_ := sbpl_cost_multiplier;
             circumscribed_cost_ := circumscribed;
             current_env_width_ := width;
             current_env_height_ := height;
             footprint_ := footprint;
             previous_plan_ := previous_plan_ this;
             previous_goal_ := previous_goal_ this;
             robot_pose_when_plan_was_created_ := robot_pose_when_plan_was_created_ this;
             Grid2D := grid;
             engine_calls := calls;
             published := published this |} in
        let calls := engine_calls this ++ [Call_new_Environment] in
        let this1 :=
          mk (circumscribed_cost_ this) (current_env_width_ this)
             (current_env_height_ this) ∅ calls false in
        let circumscribed := computeCircumscribedCost this1 costmap_ros in
        let calls :=
          calls ++ [Call_SetEnvParameter "cost_inscribed_thresh"
                      (costMapCostToSBPLCost this1 INSCRIBED_INFLATED_OBSTACLE)] in
        if negb (SetEnvParameter calls) then None
        else
          let calls :=
            calls ++ [Call_SetEnvParameter "cost_possibly_circumscribed_thresh"
                        circumscribed] in
          if negb (SetEnvParameter calls) then None
          else
            let obst_cost_thresh := costMapCostToSBPLCost this1 LETHAL_OBSTACLE in
            let perimeterptsV := map (fun p => (pt_x p, pt_y p)) footprint in
            let calls :=
              calls ++ [Call_InitializeEnv (getSizeInCellsX costmap)
                          (getSizeInCellsY costmap) perimeterptsV
                          (getResolution costmap) (param_nominalvel_mpersecs nh)
                          (param_timetoturn45degsinplace_secs nh) obst_cost_thresh
                          (param_primitive_filename nh)] in
            match InitializeEnv calls with
            | Throws | Returns false => None
            | Returns true =>
                let seeded := for_each_cell costmap (seed_cell this1 costmap) (∅, calls) in
                let mk_planner planner_type :=
                  Some (mk circumscribed (getSizeInCellsX costmap)
                          (getSizeInCellsY costmap) seeded.1
                          (seeded.2 ++ [Call_new_Planner planner_type
                                          (param_forward_search nh)]) true) in
                if String.eqb "ARAPlanner" (param_planner_type nh)
                then mk_planner "ARAPlanner"
                else if String.eqb "ADPlanner" (param_planner_type nh)
                then mk_planner "ADPlanner"
                else None
            end.

(** ** Environment synchronizer *)

(** The locals of the incremental scan, lines 465-468, with the mirror and the
    call history it writes. *)
Record SyncState := {
  sync_grid : gmap (Z * Z) Z;
  sync_calls : list EngineCall;
  offOnCount : Z;
  onOffCount : Z;
  allCount : Z;
  changedcellsV : list nav2dcell_t
}.

(** The body of the incremental scan, lines 474-504. *)
Definition sync_cell (this : SBPLLatticePlanner) (costmap : Costmap2D) (ix iy : Z)
  (st : SyncState) : SyncState :=
  let oldCost := GetMapCost (sync_grid st) ix iy in
  let newCost := costMapCostToSBPLCost this (getCost costmap ix iy) in
  if oldCost =? newCost then st
  else
    let lethal := costMapCostToSBPLCost this LETHAL_OBSTACLE in
    let inscribed := costMapCostToSBPLCost this INSCRIBED_INFLATED_OBSTACLE in
    let offOn :=
      (negb (oldCost =? lethal) && negb (oldCost =? inscribed))
      && ((newCost =? lethal) || (newCost =? inscribed)) in
    let onOff :=
      ((oldCost =? lethal) || (oldCost =? inscribed))
      && (negb (newCost =? lethal) && negb (newCost =? inscribed)) in
    let cost := costMapCostToSBPLCost this (getCost costmap ix iy) in
    {| sync_grid := UpdateCost (sync_grid st) ix iy cost;
       sync_calls := sync_calls st ++ [Call_UpdateCost ix iy cost];
       offOnCount := if offOn then offOnCount st + 1 else offOnCount st;
       onOffCount := if onOff then onOffCount st + 1 else onOffCount st;
       allCount := allCount st + 1;
       changedcellsV := changedcellsV st ++ [(ix, iy)] |}.

(** The incremental scan, lines 465-506. *)
Definition synchronize (this : SBPLLatticePlanner) (costmap : Costmap2D)
  (grid : gmap (Z * Z) Z) (calls : list EngineCall) : SyncState :=
  for_each_cell costmap (sync_cell this costmap)
    {| sync_grid := grid; sync_calls := calls; offOnCount := 0; onOffCount := 0;
       allCount := 0; changedcellsV := [] |}.

(** The notification of the engine, lines 508-524: the calls made, and whether
    the block ran to its end ([Throws] is the [catch], which returns false). *)
Definition notify_changes (this : SBPLLatticePlanner) (st : SyncState)
  : list EngineCall * outcome unit :=
  let after_costs_changed :=
    match changedcellsV st with
    | [] => (sync_calls st, Returns ())
    | _ :: _ =>
        let calls := sync_calls st ++ [Call_costs_changed (changedcellsV st)] in
        (calls, costs_changed calls)
    end in
  match after_costs_changed with
  | (calls, Throws) => (calls, Throws)
  | (calls, Returns _) =>
      if force_scratch_limit_ this <? allCount st
      then
        let calls := calls ++ [Call_force_planning_from_scratch] in
        (calls, force_planning_from_scratch calls)
      else (calls, Returns ())
  end.

(** ** Search invocation *)

(** Lines 433-447: [env_->SetStart] then [planner_->set_start], inside one
    [try].  The calls made, and false where the source returns false. *)
Definition set_start_state (calls : list EngineCall) (sx sy theta : float)
  : list EngineCall * bool :=
  let calls := calls ++ [Call_SetStart sx sy theta] in
  match SetStart calls with
  | Throws => (calls, false)
  | Returns ret =>
      if ret <? 0 then (calls, false)
      else
        let calls := calls ++ [Call_set_start ret] in
        match set_start calls with
        | Throws => (calls, false)
        | Returns r => (calls, negb (r =? 0))
        end
  end.

(** Lines 449-463: the same for the goal. *)
Definition set_goal_state (calls : list EngineCall) (gx gy theta : float)
  : list EngineCall * bool :=
  let calls := calls ++ [Call_SetGoal gx gy theta] in
  match SetGoal calls with
  | Throws => (calls, false)
  | Returns ret =>
      if ret <? 0 then (calls, false)
      else
        let calls := calls ++ [Call_set_goal ret] in
        match set_goal calls with
        | Throws => (calls, false)
        | Returns r => (calls, negb (r =? 0))
        end
  end.

(** Lines 567-573: a path of zero points gets the start as its only point. *)
Definition pad_empty_path (costmap : Costmap2D) (start : PoseStamped) (theta_start : float)
  (sbpl_path : list EnvNAVXYTHETALAT3Dpt_t) : list EnvNAVXYTHETALAT3Dpt_t :=
  if Z.of_nat (length sbpl_path) =? 0
  then
    let s := {| lat_x := (pt_x (position (pose start)) - getOriginX costmap)%float;
                lat_y := (pt_y (position (pose start)) - getOriginY costmap)%float;
                lat_theta := theta_start |} in
    sbpl_path ++ [s]
  else sbpl_path.

(** ** Path post-processor *)

(** The body of the loop of lines 580-605. *)
Definition rough_pose (costmap_ros_ : Costmap2DROS) (start : PoseStamped) (plan_time : Time)
  (pt : EnvNAVXYTHETALAT3Dpt_t) : PoseStamped :=
  let costmap := getCostmap costmap_ros_ in
  {| header := {| seq := 0; stamp := plan_time;
                  frame_id := getGlobalFrameID costmap_ros_ |};
     pose := {| position := {| pt_x := (lat_x pt + getOriginX costmap)%float;
                               pt_y := (lat_y pt + getOriginY costmap)%float;
                               pt_z := pt_z (position (pose start)) |};
                orientation := setRPY_yaw (lat_theta pt) |} |}.

(** [v[j]] for an index that the loops keep inside the vector. *)
Definition at_index (v : list PoseStamped) (j : Z) : PoseStamped :=
  default PoseStamped_default (v !! Z.to_nat j).

(** The seven [+=] of lines 623-629 and 652-658. *)
Definition accumulate (smoothed_pose p : PoseStamped) : PoseStamped :=
  let a := pose smoothed_pose in
  let b := pose p in
  {| header := header smoothed_pose;
     pose := {| position := {| pt_x := (pt_x (position a) + pt_x (position b))%float;
                               pt_y := (pt_y (position a) + pt_y (position b))%float;
                               pt_z := (pt_z (position a) + pt_z (position b))%float |};
                orientation := {| q_x := (q_x (orientation a) + q_x (orientation b))%float;
                                  q_y := (q_y (orientation a) + q_y (orientation b))%float;
                                  q_z := (q_z (orientation a) + q_z (orientation b))%float;
                                  q_w := (q_w (orientation a) + q_w (orientation b))%float |} |} |}.

(** The seven [/= total] of lines 632-638 and 661-667. *)
Definition divide (smoothed_pose : PoseStamped) (total : Z) : PoseStamped :=
  let a := pose smoothed_pose in
  let t := to_double total in
  {| header := header smoothed_pose;
     pose := {| position := {| pt_x := (pt_x (position a) / t)%float;
                               pt_y := (pt_y (position a) / t)%float;
                               pt_z := (pt_z (position a) / t)%float |};
                orientation := {| q_x := (q_x (orientation a) / t)%float;
                                  q_y := (q_y (orientation a) / t)%float;
                                  q_z := (q_z (orientation a) / t)%float;
                                  q_w := (q_w (orientation a) / t)%float |} |} |}.

(** One smoothed pose: the header of [rough_plan[i]], and the mean of the poses
    of [rough_plan] at the indices [window], which the inner loop visits in
    order while it counts them in [total]. *)
Definition window_mean (rough_plan : list PoseStamped) (i : Z) (window : list Z)
  : PoseStamped :=
  let smoothed_pose := {| header := header (at_index rough_plan i); pose := Pose_default |} in
  let summed :=
    fold_left (fun acc j => accumulate acc (at_index rough_plan j)) window smoothed_pose in
  divide summed (Z.of_nat (length window)).

(** The indices [j] of the inner loop of lines 618-619, for [N = rough_plan.size()]
    and [W = smooth_window_]: the lower bound is [int] arithmetic, the upper
    bound and the comparison [j <= ...] are [size_t] arithmetic. *)
Definition main_window (N W i : Z) : list Z :=
  let lo := if i - W <? 0 then 0 else i - W in
  let hi := if to_size_t (i + W) <? N then to_size_t (i + W) else to_size_t (N - 1) in
  seqZ lo (hi - lo + 1).

(** Lines 612-640: one [push_back] for every index of the rough plan. *)
Definition main_pass (rough_plan : list PoseStamped) (W : Z) : list PoseStamped :=
  let N := Z.of_nat (length rough_plan) in
  map (fun i => window_mean rough_plan i (main_window N W i)) (seqZ 0 N).

(** The initial [i] of line 643: [rough_plan.size() - smooth_window_] is a
    [size_t], so the test [< 0] is on an unsigned value, and the result is
    stored in an [int]. *)
Definition tail_start (N W : Z) : Z :=
  to_int (if to_size_t (N - W) <? 0 then 0 else to_size_t (N - W)).

(** The values of [i] for which the loop of lines 643-644 runs its body: the
    test [i < rough_plan.size()] converts [i] to [size_t]. *)
Definition tail_indices (N W : Z) : list Z :=
  let i0 := tail_start N W in
  if to_size_t i0 <? N then seqZ i0 (N - i0) else [].

(** The indices [j] of the inner loop of line 650. *)
Definition tail_window (N i : Z) : list Z := seqZ i (N - i).

(** Lines 642-669: one [push_back] for every index of [tail_indices]. *)
Definition tail_pass (rough_plan : list PoseStamped) (W : Z) : list PoseStamped :=
  let N := Z.of_nat (length rough_plan) in
  map (fun i => window_mean rough_plan i (tail_window N i)) (tail_indices N W).

(** The two smoothing loops on the cleared [plan], lines 612-669. *)
Definition smooth (rough_plan : list PoseStamped) (W : Z) : list PoseStamped :=
  [] ++ main_pass rough_plan W ++ tail_pass rough_plan W.

(** The body of the loop of lines 672-676. *)
Definition overwrite_orientation_at (plan : list PoseStamped) (i : Z) : list PoseStamped :=
  let a := at_index plan i in
  let b := at_index plan (i + 1) in
  let yaw :=
    atan2 (pt_y (position (pose b)) - pt_y (position (pose a)))%float
          (pt_x (position (pose b)) - pt_x (position (pose a)))%float in
  <[Z.to_nat i :=
      {| header := header a;
         pose := {| position := position (pose a);
                    orientation := createQuaternionMsgFromYaw yaw |} |}]> plan.

(** Lines 671-676, for a plan of at least one pose: [plan.size() - 1] is a
    [size_t]. *)
Definition overwrite_orientation (plan : list PoseStamped) : list PoseStamped :=
  fold_left overwrite_orientation_at
    (seqZ 0 (to_size_t (Z.of_nat (length plan) - 1))) plan.

(** The orientation that the loop of lines 672-676 writes at index [i]: the yaw
    of the step from [plan[i]] to [plan[i+1]]. *)
Definition heading_to_next (plan : list PoseStamped) (i : Z) : Quaternion :=
  let a := at_index plan i in
  let b := at_index plan (i + 1) in
  createQuaternionMsgFromYaw
    (atan2 (pt_y (position (pose b)) - pt_y (position (pose a)))%float
           (pt_x (position (pose b)) - pt_x (position (pose a)))%float).

(** ** The planning cycle *)

(** The result of a member function that may end the process: [None] is
    [exit(1)]; otherwise the returned flag, the caller's [plan] vector and the
    planner object after the call. *)
Definition call_result : Type := option (bool * list PoseStamped * SBPLLatticePlanner).

(** Lines 396-414: whether the environment has to be rebuilt.  The sizes are
    the values of the [unsigned int] of the costmap. *)
Definition do_init (this : SBPLLatticePlanner) (costmap_ros_ : Costmap2DROS) : bool :=
  let costmap := getCostmap costmap_ros_ in
  if negb (current_env_width_ this =? getSizeInCellsX costmap)
     || negb (current_env_height_ this =? getSizeInCellsY costmap)
  then true
  else if footprint_ne (footprint_ this) (getRobotFootprint costmap_ros_) then true
  else if negb (circumscribed_cost_ this =? computeCircumscribedCost this costmap_ros_)
  then true
  else false.

(** Lines 426-689 of [makePlanInternal]: the cycle on an initialized planner
    whose environment matches the costmap. *)
Definition plan_cycle (this : SBPLLatticePlanner) (costmap_ros_ : Costmap2DROS)
  (start goal : PoseStamped) : bool * list PoseStamped * SBPLLatticePlanner :=
  let costmap := getCostmap costmap_ros_ in
  let plan : list PoseStamped := [] in
  let theta_start :=
    (2 * atan2 (q_z (orientation (pose start))) (q_w (orientation (pose start))))%float in
  let theta_goal :=
    (2 * atan2 (q_z (orientation (pose goal))) (q_w (orientation (pose goal))))%float in
  let (calls, ok) :=
    set_start_state (engine_calls this)
      (pt_x (position (pose start)) - getOriginX costmap)%float
      (pt_y (position (pose start)) - getOriginY costmap)%float theta_start in
  if negb ok then (false, plan, set_engine this (Grid2D this) calls)
  else
    let (calls, ok) :=
      set_goal_state calls
        (pt_x (position (pose goal)) - getOriginX costmap)%float
        (pt_y (position (pose goal)) - getOriginY costmap)%float theta_goal in
    if negb ok then (false, plan, set_engine this (Grid2D this) calls)
    else
      let st := synchronize this costmap (Grid2D this) calls in
      match notify_changes this st with
      | (calls, Throws) => (false, plan, set_engine this (sync_grid st) calls)
      | (calls, Returns _) =>
          let calls :=
            calls ++ [Call_set_initialsolution_eps (initial_epsilon_ this);
                      Call_set_search_mode false;
                      Call_replan (allocated_time_ this)] in
          let this := set_engine this (sync_grid st) calls in
          match replan calls with
          | Throws => (false, [], this)
          | Returns (ret, solution_stateIDs, solution_cost) =>
              if ret =? 0
              then (false, [], publishStats this solution_cost 0 start goal)
              else
                let calls :=
                  calls ++ [Call_ConvertStateIDPathintoXYThetaPath solution_stateIDs] in
                let this := set_engine this (sync_grid st) calls in
                match ConvertStateIDPathintoXYThetaPath calls with
                | Throws => (false, [], this)
                | Returns sbpl_path =>
                    let sbpl_path := pad_empty_path costmap start theta_start sbpl_path in
                    let plan_time := now costmap_ros_ in
                    let rough_plan :=
                      map (rough_pose costmap_ros_ start plan_time) sbpl_path in
                    let plan :=
                      overwrite_orientation (smooth rough_plan (smooth_window_ this)) in
                    let frame := getGlobalFrameID costmap_ros_ in
                    let this :=
                      set_published this
                        (published this ++ [plan_pub frame plan_time plan;
                                            rough_plan_pub frame plan_time rough_plan]) in
                    (true, plan,
                     publishStats this solution_cost (Z.of_nat (length sbpl_path))
                       start goal)
                end
          end
      end.

(** [SBPLLatticePlanner::makePlanInternal], lines 386-689. *)
Definition makePlanInternal (this : SBPLLatticePlanner) (costmap_ros_ : Costmap2DROS)
  (start goal : PoseStamped) (plan : list PoseStamped) : call_result :=
  if negb (initialized_ this) then Some (false, [], this)
  else
    let reinitialized :=
      if do_init this costmap_ros_
      then
        initialize
          (set_engine (set_initialized this false) (Grid2D this)
             (engine_calls this ++ [Call_delete]))
          costmap_ros_
      else Some this in
    match reinitialized with
    | None => None
    | Some this => Some (plan_cycle this costmap_ros_ start goal)
    end.

(** Lines 323-352 of [makePlan]: the four reasons to plan again. *)
Definition must_make_plan (this : SBPLLatticePlanner) (goal robot_pose : PoseStamped)
  : bool :=
  let must_make_plan := false in
  let must_make_plan :=
    if bool_decide (previous_plan_ this = []) then true else must_make_plan in
  let must_make_plan :=
    if PoseStamped_ne goal (previous_goal_ this) then true else must_make_plan in
  let distance_between_plannings := 10%float in
  let must_make_plan :=
    if (distance_between_plannings
        <? distanceBetweenPoses robot_pose (robot_pose_when_plan_was_created_ this))%float
    then true else must_make_plan in
  let maximum_time_between_plannings := 10%float in
  let must_make_plan :=
    if (maximum_time_between_plannings
        <? elapsed_toSec (stamp (header robot_pose))
             (stamp (header (robot_pose_when_plan_was_created_ this))))%float
    then true else must_make_plan in
  must_make_plan.

(** Lines 364-378 of [makePlan]: the goal handed to the search. *)
Definition actual_goal (goal robot_pose : PoseStamped) : PoseStamped :=
  let dx := (pt_x (position (pose goal)) - pt_x (position (pose robot_pose)))%float in
  let dy := (pt_y (position (pose goal)) - pt_y (position (pose robot_pose)))%float in
  let dist := PrimFloat.sqrt (dx * dx + dy * dy)%float in
  let maximum_planning_distance := 20%float in
  if (maximum_planning_distance <? dist)%float
  then
    {| header := header goal;
       pose :=
         {| position :=
              {| pt_x := (pt_x (position (pose robot_pose))
                          + maximum_planning_distance * dx / dist)%float;
                 pt_y := (pt_y (position (pose robot_pose))
                          + maximum_planning_distance * dy / dist)%float;
                 pt_z := pt_z (position (pose goal)) |};
            orientation := createQuaternionMsgFromYaw (atan2 dy dx) |} |}
  else goal.

(** [SBPLLatticePlanner::makePlan], lines 310-384. *)
Definition makePlan (this : SBPLLatticePlanner) (costmap_ros_ : Costmap2DROS)
  (start goal : PoseStamped) (plan : list PoseStamped) : call_result :=
  match getRobotPose costmap_ros_ with
  | None => Some (false, plan, this)
  | Some robot_pose =>
      if negb (must_make_plan this goal robot_pose)
      then Some (true, previous_plan_ this, this)
      else
        let this := set_previous_goal this goal in
        match makePlanInternal this costmap_ros_ start (actual_goal goal robot_pose) plan with
        | None => None
        | Some (successful, plan, this) =>
            let this := set_previous_plan this plan in
            let this := set_robot_pose_when_plan_was_created this robot_pose in
            Some (successful, plan, this)
        end
  end.

End Planner.

(** ** Concrete collaborators for the examples *)

(** Field-wise comparison of two stamped poses, as the generated
    [operator!=] of the message does it. *)
Definition PoseStamped_fieldwise_ne (a b : PoseStamped) : bool :=
  negb
    ((seq (header a) =? seq (header b))
     && (sec (stamp (header a)) =? sec (stamp (header b)))
     && (nsec (stamp (header a)) =? nsec (stamp (header b)))
     && String.eqb (frame_id (header a)) (frame_id (header b))
     && Point_eq (position (pose a)) (position (pose b))
     && PrimFloat.eqb (q_x (orientation (pose a))) (q_x (orientation (pose b)))
     && PrimFloat.eqb (q_y (orientation (pose a))) (q_y (orientation (pose b)))
     && PrimFloat.eqb (q_z (orientation (pose a))) (q_z (orientation (pose b)))
     && PrimFloat.eqb (q_w (orientation (pose a))) (q_w (orientation (pose b)))).

(** A message library for poses that lie on the x axis and head along it: the
    yaw is 0 and its quaternion is the identity.  Stamps are whole seconds
    (the nanoseconds of the examples are 0), and their difference is signed. *)
Definition axis_msglib : MsgLib :=
  {| atan2 := fun _ _ => 0%float;
     createQuaternionMsgFromYaw := fun _ =>
       {| q_x := 0; q_y := 0; q_z := 0; q_w := 1 |};
     setRPY_yaw := fun _ => {| q_x := 0; q_y := 0; q_z := 0; q_w := 1 |};
     elapsed_toSec := fun a b =>
       if sec a - sec b <? 0 then (- to_double (sec b - sec a))%float
       else to_double (sec a - sec b);
     PoseStamped_ne := PoseStamped_fieldwise_ne |}.

(** An engine that accepts every start and goal, never throws, and answers
    [replan] with [ret] and a solution of no state. *)
Definition scripted_engine (ret : Z) : SBPL :=
  {| SetEnvParameter := fun _ => true;
     InitializeEnv := fun _ => Returns true;
     SetStart := fun _ => Returns 1;
     set_start := fun _ => Returns 1;
     SetGoal := fun _ => Returns 2;
     set_goal := fun _ => Returns 1;
     costs_changed := fun _ => Returns ();
     force_planning_from_scratch := fun _ => Returns ();
     replan := fun _ => Returns (ret, [], 0);
     ConvertStateIDPathintoXYThetaPath := fun _ => Returns [];
     get_stats := fun _ =>
       {| n_expands := 1; initial_eps_planning_time := 0;
          final_eps_planning_time := 0; n_expands_init_solution := 1;
          final_epsilon := 1 |} |}.

(** A pose on the x axis at [px], stamped [t] seconds. *)
Definition pose_at (px : float) (t : Z) : PoseStamped :=
  {| header := {| seq := 0; stamp := {| sec := t; nsec := 0 |}; frame_id := "map" |};
     pose := {| position := {| pt_x := px; pt_y := 0; pt_z := 0 |};
                orientation := {| q_x := 0; q_y := 0; q_z := 0; q_w := 1 |} |} |}.

(** A 2 x 2 costmap with the given cost function. *)
Definition costmap_2x2 (cost : Z → Z → Z) : Costmap2D :=
  {| getSizeInCellsX := 2; getSizeInCellsY := 2; getResolution := 1;
     getOriginX := 0; getOriginY := 0; getCost := cost |}.

(** The default parameters of [initialize], lines 110-123. *)
Definition default_params : Params :=
  {| param_planner_type := "ARAPlanner";
     param_allocated_time := 10;
     param_initial_epsilon := 3;
     param_environment_type := "XYThetaLattice";
     param_forward_search := false;
     param_primitive_filename := "";
     param_force_scratch_limit := 500;
     param_smooth_window := 20;
     param_nominalvel_mpersecs := 0x1.999999999999ap-2;
     param_timetoturn45degsinplace_secs := 0x1.3333333333333p-1;
     param_lethal_obstacle := 20 |}.

(** The world of the examples: a free 2 x 2 grid, no inflation layer, the
    robot at [robot] (or unknown), the clock at 100 s. *)
Definition example_world (robot : option PoseStamped) (cost : Z → Z → Z) : Costmap2DROS :=
  {| getRobotPose := robot;
     getCostmap := costmap_2x2 cost;
     getRobotFootprint := [];
     getPlugins := [];
     getGlobalFrameID := "map";
     now := {| sec := 100; nsec := 0 |};
     private_nh := default_params |}.

(** An initialized planner on a 2 x 2 grid with the default cost thresholds, the
    given scratch limit and smoothing window, the given cache and the given
    mirror. *)
Definition example_planner (limit window : Z) (cached_plan : list PoseStamped)
  (cached_goal created : PoseStamped) (grid : gmap (Z * Z) Z) : SBPLLatticePlanner :=
  {| initialized_ := true;
     planner_type_ := "ARAPlanner";
     allocated_time_ := 10;
     initial_epsilon_ := 3;
     environment_type_ := "XYThetaLattice";
     forward_search_ := false;
     primitive_filename_ := "";
     force_scratch_limit_ := limit;
     smooth_window_ := window;
     lethal_obstacle_ := 20;
     inscribed_inflated_obstacle_ := 19;
     sbpl_cost_multiplier_ := 14;
     circumscribed_cost_ := 0;
     current_env_width_ := 2;
     current_env_height_ := 2;
     footprint_ := [];
     previous_plan_ := cached_plan;
     previous_goal_ := cached_goal;
     robot_pose_when_plan_was_created_ := created;
     Grid2D := grid;
     engine_calls := [];
     published := [] |}.

(** The planner of the examples with a cached plan of one pose, made for the
    goal at x = 5 when the robot stood at the origin at time 0. *)
Definition cached_planner : SBPLLatticePlanner :=
  example_planner 500 20 [pose_at 1 0] (pose_at 5 0) (pose_at 0 0) ∅.

(** One second later, on a free grid, the robot still at the origin. *)
Definition world_after_1s : Costmap2DROS :=
  example_world (Some (pose_at 0 1)) (λ _ _, 0).

(** A request for the new goal at x = 6 on an engine whose [replan] returns
    [ret]. *)
Definition request_new_goal (ret : Z) : call_result :=
  @makePlan costmap_2d_values axis_msglib (scripted_engine ret) cached_planner
    world_after_1s (pose_at 0 1) (pose_at 6 0) [pose_at 9 9].

(** Three rough poses at x = 0, 1, 2 on the x axis. *)
Definition rough_012 : list PoseStamped := [pose_at 0 0; pose_at 1 0; pose_at 2 0].

(** The x coordinates of a plan. *)
Definition xs (plan : list PoseStamped) : list float :=
  map (λ p, pt_x (position (pose p))) plan.

(** The planner of the examples before [initialize] has run. *)
Definition uninitialized_planner : SBPLLatticePlanner :=
  set_initialized
    (example_planner 500 20 [] PoseStamped_default PoseStamped_default ∅) false.

(** A 2 x 2 grid of cost 100 everywhere, the robot at the origin. *)
Definition costly_world : Costmap2DROS :=
  example_world (Some (pose_at 0 1)) (λ _ _, 100).

(** A node configured with a planner type that does not exist. *)
Definition unsupported_world : Costmap2DROS :=
  {| getRobotPose := None;
     getCostmap := costmap_2x2 (λ _ _, 0);
     getRobotFootprint := [];
     getPlugins := [];
     getGlobalFrameID := "map";
     now := Time_zero;
     private_nh :=
       {| param_planner_type := "RRTPlanner";
          param_allocated_time := 10;
          param_initial_epsilon := 3;
          param_environment_type := "XYThetaLattice";
          param_forward_search := false;
          param_primitive_filename := "";
          param_force_scratch_limit := 500;
          param_smooth_window := 20;
          param_nominalvel_mpersecs := 1;
          param_timetoturn45degsinplace_secs := 1;
          param_lethal_obstacle := 20 |} |}.

(** An engine whose environment rejects every start with the identifier -1. *)
Definition rejecting_engine : SBPL :=
  {| SetEnvParameter := fun _ => true;
     InitializeEnv := fun _ => Returns true;
     SetStart := fun _ => Returns (-1);
     set_start := fun _ => Returns 1;
     SetGoal := fun _ => Returns 2;
     set_goal := fun _ => Returns 1;
     costs_changed := fun _ => Returns ();
     force_planning_from_scratch := fun _ => Returns ();
     replan := fun _ => Returns (1, [], 0);
     ConvertStateIDPathintoXYThetaPath := fun _ => Returns [];
     get_stats := fun _ =>
       {| n_expands := 0; initial_eps_planning_time := 0;
          final_eps_planning_time := 0; n_expands_init_solution := 0;
          final_epsilon := 0 |} |}.


(** * Properties *)

(** ** Binary64 comparisons *)

Lemma SFcompare_antisym (x y : spec_float) :
  SFcompare y x = option_map CompOpp (SFcompare x y).
Proof.
  destruct x as [sx|sx| |sx mx ex], y as [sy|sy| |sy my ey]; simpl;
    try reflexivity;
    try (destruct sx; reflexivity); try (destruct sy; reflexivity);
    try (destruct sx, sy; reflexivity).
  destruct sx, sy; simpl; try reflexivity;
    rewrite (Z.compare_antisym ey ex);
    destruct (ey ?= ex) eqn:E; simpl; try reflexivity;
    rewrite (Pos.compare_cont_antisym mx my Eq); simpl;
    destruct (Pos.compare_cont Eq mx my); reflexivity.
Qed.

(** [a <= b] excludes [b < a]. *)
Lemma leb_not_ltb (a b : float) :
  (a <=? b)%float = true → (b <? a)%float = false.
Proof.
  rewrite FloatAxioms.leb_spec, FloatAxioms.ltb_spec. unfold SFleb, SFltb.
  rewrite (SFcompare_antisym (Prim2SF a) (Prim2SF b)).
  destruct (SFcompare (Prim2SF a) (Prim2SF b)) as [[]|]; simpl; congruence.
Qed.


(** ** The cost mapper *)

Section CostMapperFacts.
Context `{CostValues}.

(** The quotient of a byte by a positive multiplier is a byte again, so the
    store into [unsigned char sbpl_cost] loses nothing. *)
Lemma quotient_is_byte (raw m : Z) :
  0 ≤ raw < 256 → 0 < m → to_uchar (raw / m) = raw / m.
Proof.
  intros Hraw Hm. unfold to_uchar. apply Z.mod_small. split.
  - apply Z.div_pos; lia.
  - apply Z.le_lt_trans with raw; [|lia].
    apply Z.div_le_upper_bound; nia.
Qed.

(** The last branch of the mapper, on a cost that is no sentinel and not 0. *)
Lemma costMapCostToSBPLCost_scaled (this : SBPLLatticePlanner) (raw : Z) :
  0 ≤ raw < 256 → 0 < sbpl_cost_multiplier_ this →
  raw ≠ LETHAL_OBSTACLE → raw ≠ INSCRIBED_INFLATED_OBSTACLE →
  raw ≠ 0 → raw ≠ NO_INFORMATION →
  costMapCostToSBPLCost this raw = Z.max 1 (raw / sbpl_cost_multiplier_ this).
Proof.
  intros Hraw Hm Hl Hi H0 Hn. unfold costMapCostToSBPLCost.
  rewrite (proj2 (Z.eqb_neq _ _) Hl), (proj2 (Z.eqb_neq _ _) Hi),
    (proj2 (Z.eqb_neq _ _) H0), (proj2 (Z.eqb_neq _ _) Hn). simpl.
  rewrite quotient_is_byte by assumption.
  assert (0 ≤ raw / sbpl_cost_multiplier_ this) by (apply Z.div_pos; lia).
  destruct (Z.eqb_spec (raw / sbpl_cost_multiplier_ this) 0); lia.
Qed.

(** C5: the mapper sends the LETHAL sentinel to [lethal_obstacle_], the
    INSCRIBED_INFLATED sentinel to [inscribed_inflated_obstacle_], 0 and the
    NO_INFORMATION sentinel to 0, and every other byte [raw] to
    [max 1 (raw / sbpl_cost_multiplier_)], which is never 0. *)
Theorem costMapCostToSBPLCost_cases (this : SBPLLatticePlanner) :
  sentinels_wf → 0 < sbpl_cost_multiplier_ this →
  costMapCostToSBPLCost this LETHAL_OBSTACLE = lethal_obstacle_ this
  ∧ costMapCostToSBPLCost this INSCRIBED_INFLATED_OBSTACLE
    = inscribed_inflated_obstacle_ this
  ∧ costMapCostToSBPLCost this 0 = 0
  ∧ costMapCostToSBPLCost this NO_INFORMATION = 0
  ∧ ∀ raw : Z,
      0 ≤ raw < 256 →
      raw ≠ LETHAL_OBSTACLE → raw ≠ INSCRIBED_INFLATED_OBSTACLE →
      raw ≠ 0 → raw ≠ NO_INFORMATION →
      costMapCostToSBPLCost this raw = Z.max 1 (raw / sbpl_cost_multiplier_ this)
      ∧ costMapCostToSBPLCost this raw ≠ 0.
Proof.
  intros [Hl Hi Hn Hli Hln Hin] Hm. repeat split.
  - unfold costMapCostToSBPLCost. now rewrite Z.eqb_refl.
  - unfold costMapCostToSBPLCost.
    rewrite (proj2 (Z.eqb_neq INSCRIBED_INFLATED_OBSTACLE LETHAL_OBSTACLE)) by congruence.
    now rewrite Z.eqb_refl.
  - unfold costMapCostToSBPLCost.
    rewrite (proj2 (Z.eqb_neq 0 LETHAL_OBSTACLE)) by lia.
    rewrite (proj2 (Z.eqb_neq 0 INSCRIBED_INFLATED_OBSTACLE)) by lia.
    reflexivity.
  - unfold costMapCostToSBPLCost.
    rewrite (proj2 (Z.eqb_neq NO_INFORMATION LETHAL_OBSTACLE)) by congruence.
    rewrite (proj2 (Z.eqb_neq NO_INFORMATION INSCRIBED_INFLATED_OBSTACLE)) by congruence.
    rewrite Z.eqb_refl. now rewrite orb_true_r.
  - now apply costMapCostToSBPLCost_scaled.
  - rewrite costMapCostToSBPLCost_scaled by assumption. lia.
Qed.

(** C6: on two bytes [a < b] of which neither is the LETHAL, the
    INSCRIBED_INFLATED or the NO_INFORMATION sentinel, the mapper is monotone. *)
Theorem costMapCostToSBPLCost_monotone (this : SBPLLatticePlanner) (a b : Z) :
  0 < sbpl_cost_multiplier_ this →
  0 ≤ a → a < b → b < 256 →
  a ≠ LETHAL_OBSTACLE → a ≠ INSCRIBED_INFLATED_OBSTACLE → a ≠ NO_INFORMATION →
  b ≠ LETHAL_OBSTACLE → b ≠ INSCRIBED_INFLATED_OBSTACLE → b ≠ NO_INFORMATION →
  costMapCostToSBPLCost this a ≤ costMapCostToSBPLCost this b.
Proof.
  intros Hm Ha Hab Hb Hal Hai Han Hbl Hbi Hbn.
  rewrite (costMapCostToSBPLCost_scaled this b) by (assumption || lia).
  destruct (Z.eq_dec a 0) as [->|Ha0].
  - unfold costMapCostToSBPLCost.
    rewrite (proj2 (Z.eqb_neq _ _) Hal), (proj2 (Z.eqb_neq _ _) Hai). simpl. lia.
  - rewrite (costMapCostToSBPLCost_scaled this a) by (assumption || lia).
    apply Z.max_le_compat_l. apply Z.div_le_mono; lia.
Qed.

End CostMapperFacts.

(** C5 on the planner of the examples with the sentinels of costmap_2d:
    cost 100 is mapped to 100 / 14 = 7. *)
Lemma costMapCostToSBPLCost_cases_witness :
  let this := example_planner 500 20 [] PoseStamped_default PoseStamped_default ∅ in
  @costMapCostToSBPLCost costmap_2d_values this 254 = 20
  ∧ @costMapCostToSBPLCost costmap_2d_values this 253 = 19
  ∧ @costMapCostToSBPLCost costmap_2d_values this 0 = 0
  ∧ @costMapCostToSBPLCost costmap_2d_values this 255 = 0
  ∧ @costMapCostToSBPLCost costmap_2d_values this 100 = 7.
Proof.
  intros this.
  assert (Hwf : @sentinels_wf costmap_2d_values) by (split; simpl; lia).
  assert (Hm : 0 < sbpl_cost_multiplier_ this) by (simpl; lia).
  destruct (@costMapCostToSBPLCost_cases costmap_2d_values this Hwf Hm)
    as (Hl & Hi & H0 & Hn & Hraw).
  split; [exact Hl|]. split; [exact Hi|]. split; [exact H0|]. split; [exact Hn|].
  destruct (Hraw 100) as [Heq _]; simpl; try lia. exact Heq.
Defined.

(** C6 at the costs 10 and 200. *)
Lemma costMapCostToSBPLCost_monotone_witness :
  let this := example_planner 500 20 [] PoseStamped_default PoseStamped_default ∅ in
  @costMapCostToSBPLCost costmap_2d_values this 10
  ≤ @costMapCostToSBPLCost costmap_2d_values this 200.
Proof.
  intros this.
  apply (@costMapCostToSBPLCost_monotone costmap_2d_values this 10 200);
    simpl; lia.
Defined.

(** ** The incremental scan *)

Lemma elem_of_grid_cells (costmap : Costmap2D) (ix iy : Z) :
  (ix, iy) ∈ grid_cells costmap
  ↔ 0 ≤ ix < getSizeInCellsX costmap ∧ 0 ≤ iy < getSizeInCellsY costmap.
Proof.
  unfold grid_cells. rewrite list_elem_of_bind. split.
  - intros (jx & Hin & Hjx). apply list_elem_of_fmap in Hin as (jy & Heq & Hjy).
    inversion Heq; subst. apply elem_of_seqZ in Hjx, Hjy. lia.
  - intros [Hx Hy]. exists ix. split.
    + apply list_elem_of_fmap. exists iy. split; [reflexivity|].
      apply elem_of_seqZ. lia.
    + apply elem_of_seqZ. lia.
Qed.

Lemma NoDup_grid_cells (costmap : Costmap2D) : NoDup (grid_cells costmap).
Proof.
  unfold grid_cells. apply NoDup_bind.
  - intros x1 x2 c _ _ H1 H2.
    apply list_elem_of_fmap in H1 as (y1 & -> & _).
    apply list_elem_of_fmap in H2 as (y2 & Heq & _). congruence.
  - intros ix _. apply NoDup_fmap_2; [|apply NoDup_seqZ].
    intros y1 y2 Heq. congruence.
  - apply NoDup_seqZ.
Qed.

(** The two nested loops are one pass over [grid_cells]. *)
Lemma for_each_cell_grid_cells {S : Type} (costmap : Costmap2D) (body : Z → Z → S → S)
  (st : S) :
  for_each_cell costmap body st
  = fold_left (λ st c, body c.1 c.2 st) (grid_cells costmap) st.
Proof.
  unfold for_each_cell, grid_cells.
  generalize (seqZ 0 (getSizeInCellsY costmap)) as ys.
  generalize (seqZ 0 (getSizeInCellsX costmap)) as xs. intros xs ys. revert st.
  induction xs as [|ix xs IH]; intros st; [reflexivity|].
  cbn [fold_left mbind list_bind]. rewrite fold_left_app, <- IH. f_equal.
  clear IH. revert st. induction ys as [|iy ys IHy]; intros st; [reflexivity|].
  cbn [fold_left fmap list_fmap]. apply IHy.
Qed.

(** Two predicates that agree on the elements of a list filter it alike. *)
Lemma filter_agree {A : Type} (P Q : A → Prop) `{!∀ x, Decision (P x)}
  `{!∀ x, Decision (Q x)} (l : list A) :
  (∀ x, x ∈ l → (P x ↔ Q x)) → filter P l = filter Q l.
Proof.
  induction l as [|a l IH]; intros Hagree; [reflexivity|].
  assert (Htail : filter P l = filter Q l).
  { apply IH. intros x Hx. apply Hagree. apply elem_of_cons. now right. }
  destruct (decide (P a)) as [Hp|Hp].
  - rewrite (filter_cons_True P) by assumption.
    rewrite (filter_cons_True Q) by (apply (Hagree a); [apply elem_of_cons; now left|assumption]).
    now rewrite Htail.
  - rewrite (filter_cons_False P) by assumption.
    rewrite (filter_cons_False Q).
    + exact Htail.
    + intros Hq. apply Hp. apply (Hagree a); [apply elem_of_cons; now left|assumption].
Qed.

Section SyncFacts.
Context `{CostValues}.
Variable this : SBPLLatticePlanner.
Variable costmap : Costmap2D.

(** The cost the live grid has at a cell, in the engine's scale. *)
Let live (c : nav2dcell_t) : Z := costMapCostToSBPLCost this (getCost costmap c.1 c.2).

(** One cell of the scan: the mirror is written at that cell only, and the
    cell is recorded exactly when its cost differs. *)
Lemma sync_cell_spec (c : nav2dcell_t) (st : SyncState) :
  let st' := sync_cell this costmap c.1 c.2 st in
  GetMapCost (sync_grid st') c.1 c.2 = live c
  ∧ (∀ c' : nav2dcell_t, c' ≠ c →
       GetMapCost (sync_grid st') c'.1 c'.2 = GetMapCost (sync_grid st) c'.1 c'.2)
  ∧ changedcellsV st'
    = changedcellsV st
      ++ (if decide (GetMapCost (sync_grid st) c.1 c.2 ≠ live c) then [c] else [])
  ∧ allCount st'
    = allCount st
      + (if decide (GetMapCost (sync_grid st) c.1 c.2 ≠ live c) then 1 else 0).
Proof.
  destruct c as [ix iy]. unfold sync_cell, live. simpl.
  destruct (decide (GetMapCost (sync_grid st) ix iy
                    ≠ costMapCostToSBPLCost this (getCost costmap ix iy))) as [Hne|Heq].
  - rewrite (proj2 (Z.eqb_neq _ _) Hne). simpl.
    split; [|split; [|split; reflexivity]].
    + unfold GetMapCost, UpdateCost. now rewrite lookup_insert_eq.
    + intros [jx jy] Hc. unfold GetMapCost, UpdateCost. simpl.
      rewrite lookup_insert_ne by congruence. reflexivity.
  - apply dec_stable in Heq. rewrite (proj2 (Z.eqb_eq _ _) Heq).
    split; [exact Heq|]. split; [reflexivity|].
    split; [now rewrite app_nil_r | lia].
Qed.

(** The scan over a list of distinct cells. *)
Lemma sync_cells_spec (cells : list nav2dcell_t) (st : SyncState) :
  NoDup cells →
  let st' := fold_left (λ st c, sync_cell this costmap c.1 c.2 st) cells st in
  (∀ c, c ∈ cells → GetMapCost (sync_grid st') c.1 c.2 = live c)
  ∧ (∀ c, c ∉ cells →
       GetMapCost (sync_grid st') c.1 c.2 = GetMapCost (sync_grid st) c.1 c.2)
  ∧ changedcellsV st'
    = changedcellsV st
      ++ filter (λ c, GetMapCost (sync_grid st) c.1 c.2 ≠ live c) cells
  ∧ allCount st'
    = allCount st
      + Z.of_nat (length (filter (λ c, GetMapCost (sync_grid st) c.1 c.2 ≠ live c) cells)).
Proof.
  revert st. induction cells as [|c cells IH]; intros st Hnd.
  - simpl. split; [|split; [|split]].
    + intros c Hc. inversion Hc.
    + reflexivity.
    + now rewrite app_nil_r.
    + lia.
  - apply NoDup_cons in Hnd as [Hc Hnd]. cbn [fold_left].
    destruct (sync_cell_spec c st) as (Hat & Hother & Hchanged & Hcount).
    destruct (IH (sync_cell this costmap c.1 c.2 st) Hnd) as (IHin & IHout & IHch & IHcnt).
    assert (Hfilter :
      filter (λ c0, GetMapCost (sync_grid (sync_cell this costmap c.1 c.2 st)) c0.1 c0.2
                    ≠ live c0) cells
      = filter (λ c0, GetMapCost (sync_grid st) c0.1 c0.2 ≠ live c0) cells).
    { apply filter_agree. intros c0 Hc0. rewrite Hother; [reflexivity|].
      intros ->. contradiction. }
    rewrite Hfilter in IHch, IHcnt.
    split; [|split; [|split]].
    + intros c0 Hc0. apply elem_of_cons in Hc0 as [->|Hc0].
      * rewrite IHout by assumption. exact Hat.
      * now apply IHin.
    + intros c0 Hc0. apply not_elem_of_cons in Hc0 as [Hne Hc0].
      rewrite IHout by assumption. now apply Hother.
    + rewrite IHch, Hchanged, <- app_assoc. f_equal.
      destruct (decide (GetMapCost (sync_grid st) c.1 c.2 ≠ live c)) as [Hd|Hd].
      * now rewrite filter_cons_True.
      * now rewrite filter_cons_False.
    + rewrite IHcnt, Hcount.
      destruct (decide (GetMapCost (sync_grid st) c.1 c.2 ≠ live c)) as [Hd|Hd].
      * rewrite filter_cons_True by assumption. simpl length.
        rewrite Nat2Z.inj_succ, <- Z.add_1_l, Z.add_assoc. reflexivity.
      * rewrite filter_cons_False by assumption. rewrite Z.add_0_r. reflexivity.
Qed.

(** C8: after the incremental scan the mirror holds, at every cell of the
    costmap, the mapped cost of the live grid; the changed cells are exactly
    the cells of the costmap whose mapped cost differed from the mirror before
    the scan, each recorded once and in scan order, so their number (also the
    value of [allCount]) is the number of such cells; the mirror is untouched
    outside the costmap. *)
Theorem synchronize_delta (grid : gmap (Z * Z) Z) (calls : list EngineCall) :
  let st := synchronize this costmap grid calls in
  let differs (c : nav2dcell_t) := GetMapCost grid c.1 c.2 ≠ live c in
  (∀ ix iy : Z,
     0 ≤ ix < getSizeInCellsX costmap → 0 ≤ iy < getSizeInCellsY costmap →
     GetMapCost (sync_grid st) ix iy
     = costMapCostToSBPLCost this (getCost costmap ix iy))
  ∧ (∀ ix iy : Z,
       (ix, iy) ∈ changedcellsV st
       ↔ (0 ≤ ix < getSizeInCellsX costmap ∧ 0 ≤ iy < getSizeInCellsY costmap)
         ∧ GetMapCost grid ix iy ≠ costMapCostToSBPLCost this (getCost costmap ix iy))
  ∧ NoDup (changedcellsV st)
  ∧ changedcellsV st = filter differs (grid_cells costmap)
  ∧ allCount st = Z.of_nat (length (filter differs (grid_cells costmap)))
  ∧ (∀ ix iy : Z,
       ¬ (0 ≤ ix < getSizeInCellsX costmap ∧ 0 ≤ iy < getSizeInCellsY costmap) →
       GetMapCost (sync_grid st) ix iy = GetMapCost grid ix iy).
Proof.
  intros st differs. subst st. unfold synchronize.
  rewrite for_each_cell_grid_cells.
  match goal with
  | |- context [fold_left _ _ ?s0] =>
      destruct (sync_cells_spec (grid_cells costmap) s0 (NoDup_grid_cells costmap))
        as (Hin & Hout & Hch & Hcnt)
  end.
  simpl in Hch, Hcnt, Hout. fold differs in Hch, Hcnt.
  split; [|split; [|split; [|split; [|split]]]].
  - intros ix iy Hx Hy. apply (Hin (ix, iy)). now apply elem_of_grid_cells.
  - intros ix iy. rewrite Hch, list_elem_of_filter, elem_of_grid_cells.
    unfold differs, live. simpl. tauto.
  - rewrite Hch. apply NoDup_filter, NoDup_grid_cells.
  - exact Hch.
  - rewrite Hcnt. reflexivity.
  - intros ix iy Hout'. apply (Hout (ix, iy)).
    rewrite elem_of_grid_cells. exact Hout'.
Qed.

End SyncFacts.

(** The counter of the scan is the number of recorded cells. *)
Lemma synchronize_allCount `{CostValues} (this : SBPLLatticePlanner) (costmap : Costmap2D)
  (grid : gmap (Z * Z) Z) (calls : list EngineCall) :
  allCount (synchronize this costmap grid calls)
  = Z.of_nat (length (changedcellsV (synchronize this costmap grid calls))).
Proof.
  unfold synchronize. rewrite for_each_cell_grid_cells.
  match goal with
  | |- context [fold_left _ _ ?s0] =>
      destruct (sync_cells_spec this costmap (grid_cells costmap) s0
                  (NoDup_grid_cells costmap)) as (_ & _ & Hch & Hcnt)
  end.
  rewrite Hcnt, Hch. reflexivity.
Qed.

(** ** The notification of the engine *)

Section NotifyFacts.
Context `{CostValues} `{SBPL}.

(** C4, as the code has it: after the scan has recorded [k] cells, a non-empty
    list of changed cells is always handed to [costs_changed], whatever [k]
    is; [force_planning_from_scratch] is then called as well, as the last call
    of the block, exactly when [k] exceeds [force_scratch_limit_] and the
    notification did not throw.  With no changed cell nothing is handed over. *)
Theorem notify_changes_policy (this : SBPLLatticePlanner) (costmap : Costmap2D)
  (grid : gmap (Z * Z) Z) (calls0 : list EngineCall) :
  let st := synchronize this costmap grid calls0 in
  let k := Z.of_nat (length (changedcellsV st)) in
  let notified := sync_calls st ++ [Call_costs_changed (changedcellsV st)] in
  let forced (calls : list EngineCall) :=
    if force_scratch_limit_ this <? k
    then (calls ++ [Call_force_planning_from_scratch],
          force_planning_from_scratch (calls ++ [Call_force_planning_from_scratch]))
    else (calls, Returns ()) in
  (k = 0 → notify_changes this st = forced (sync_calls st))
  ∧ (0 < k → costs_changed notified = Throws →
     notify_changes this st = (notified, Throws))
  ∧ (0 < k → costs_changed notified = Returns () →
     notify_changes this st = forced notified).
Proof.
  intros st k notified forced.
  assert (Hcount : allCount st = k) by apply synchronize_allCount.
  subst forced notified. unfold notify_changes. rewrite Hcount.
  subst k. destruct (changedcellsV st) as [|c cells] eqn:Hcells.
  - split; [|split]; simpl; intros; try lia. reflexivity.
  - split; [|split].
    + intros Hk. simpl in Hk. lia.
    + intros _ Hres. rewrite Hres. reflexivity.
    + intros _ Hres. rewrite Hres. reflexivity.
Qed.

End NotifyFacts.

(** C4 refuted as stated: on a 2 x 2 grid whose four cells all change, with a
    scratch limit of 1, the four cells are handed to [costs_changed] although
    their number exceeds the limit, and [force_planning_from_scratch]
    follows. *)
Lemma notify_changes_over_limit :
  let this :=
    example_planner 1 20 [] PoseStamped_default PoseStamped_default ∅ in
  let st :=
    @synchronize costmap_2d_values this (costmap_2x2 (λ _ _, 100)) ∅ [] in
  force_scratch_limit_ this < Z.of_nat (length (changedcellsV st))
  ∧ @notify_changes (scripted_engine 1) this st
    = ([Call_UpdateCost 0 0 7; Call_UpdateCost 0 1 7; Call_UpdateCost 1 0 7;
        Call_UpdateCost 1 1 7;
        Call_costs_changed [(0, 0); (0, 1); (1, 0); (1, 1)];
        Call_force_planning_from_scratch], Returns ()).
Proof. split; [vm_compute; reflexivity | vm_compute; reflexivity]. Qed.

(** ** The plan cache *)

Section CacheFacts.
Context `{CostValues} `{MsgLib} `{SBPL}.

Lemma publishStats_cache (this : SBPLLatticePlanner) (cost size : Z)
  (start goal : PoseStamped) :
  cache (publishStats this cost size start goal) = cache this.
Proof. reflexivity. Qed.

Lemma initialize_cache (this this' : SBPLLatticePlanner) (costmap_ros : Costmap2DROS) :
  initialize this costmap_ros = Some this' → cache this' = cache this.
Proof.
  unfold initialize. intros Hinit.
  repeat match type of Hinit with
         | (if ?b then _ else _) = _ => destruct b
         | match ?o with Returns _ => _ | Throws => _ end = _ => destruct o as [[]|]
         | None = Some _ => discriminate
         | Some _ = Some _ => injection Hinit as <-
         end; reflexivity.
Qed.

(** A cycle keeps the cache, and a cycle that fails returns the cleared plan. *)
Lemma plan_cycle_cache (this : SBPLLatticePlanner) (costmap_ros_ : Costmap2DROS)
  (start goal : PoseStamped) :
  cache (plan_cycle this costmap_ros_ start goal).2 = cache this
  ∧ ((plan_cycle this costmap_ros_ start goal).1.1 = false →
     (plan_cycle this costmap_ros_ start goal).1.2 = []).
Proof.
  unfold plan_cycle.
  repeat match goal with
         | |- context [let (_, _) := ?p in _] => destruct p
         | |- context [if ?b then _ else _] => destruct b
         | |- context [match ?o with Returns _ => _ | Throws => _ end] => destruct o
         end; simpl; split; (reflexivity || discriminate).
Qed.

Lemma makePlanInternal_cache (this this' : SBPLLatticePlanner) (costmap_ros_ : Costmap2DROS)
  (start goal : PoseStamped) (plan plan' : list PoseStamped) (ok : bool) :
  makePlanInternal this costmap_ros_ start goal plan = Some (ok, plan', this') →
  cache this' = cache this ∧ (ok = false → plan' = []).
Proof.
  unfold makePlanInternal. destruct (initialized_ this); simpl.
  - destruct (do_init this costmap_ros_).
    + destruct (initialize _ costmap_ros_) as [this1|] eqn:Hinit; [|discriminate].
      intros Hres. injection Hres as Hres.
      destruct (plan_cycle_cache this1 costmap_ros_ start goal) as [Hc Hf].
      rewrite Hres in Hc, Hf. simpl in Hc, Hf.
      split; [|exact Hf]. rewrite Hc. apply (initialize_cache _ _ _ Hinit).
    + intros Hres. injection Hres as Hres.
      destruct (plan_cycle_cache this costmap_ros_ start goal) as [Hc Hf].
      rewrite Hres in Hc, Hf. simpl in Hc, Hf. split; assumption.
  - intros Hres. injection Hres as <- <- <-. split; reflexivity.
Qed.

(** C10: when the robot pose cannot be obtained, [makePlan] returns false, hands
    the caller's plan back as it was, and leaves the planner object (its cache,
    the mirror, the engine history) as it was. *)
Theorem makePlan_without_robot_pose (this : SBPLLatticePlanner)
  (costmap_ros_ : Costmap2DROS) (start goal : PoseStamped) (plan : list PoseStamped) :
  getRobotPose costmap_ros_ = None →
  makePlan this costmap_ros_ start goal plan = Some (false, plan, this).
Proof. intros Hpose. unfold makePlan. rewrite Hpose. reflexivity. Qed.

(** No new plan is made when none of the four conditions holds. *)
Lemma must_make_plan_false (this : SBPLLatticePlanner) (goal robot_pose : PoseStamped) :
  previous_plan_ this ≠ [] →
  PoseStamped_ne goal (previous_goal_ this) = false →
  (distanceBetweenPoses robot_pose (robot_pose_when_plan_was_created_ this) <=? 10)%float
  = true →
  (elapsed_toSec (stamp (header robot_pose))
     (stamp (header (robot_pose_when_plan_was_created_ this))) <=? 10)%float = true →
  must_make_plan this goal robot_pose = false.
Proof.
  intros Hplan Hgoal Hdist Htime. unfold must_make_plan.
  rewrite bool_decide_eq_false_2 by assumption.
  rewrite Hgoal, (leb_not_ltb _ _ Hdist), (leb_not_ltb _ _ Htime). reflexivity.
Qed.

(** C3: with a cached plan, an unchanged goal, at most 10 units travelled and
    at most 10 seconds elapsed since the cached plan was made, [makePlan]
    returns true with the cached plan and the planner object is the one it
    started from: no call on the engine, no write to the mirror, nothing
    published. *)
Theorem makePlan_reuses_cached_plan (this : SBPLLatticePlanner)
  (costmap_ros_ : Costmap2DROS) (start goal robot_pose : PoseStamped)
  (plan : list PoseStamped) :
  getRobotPose costmap_ros_ = Some robot_pose →
  previous_plan_ this ≠ [] →
  PoseStamped_ne goal (previous_goal_ this) = false →
  (distanceBetweenPoses robot_pose (robot_pose_when_plan_was_created_ this) <=? 10)%float
  = true →
  (elapsed_toSec (stamp (header robot_pose))
     (stamp (header (robot_pose_when_plan_was_created_ this))) <=? 10)%float = true →
  makePlan this costmap_ros_ start goal plan = Some (true, previous_plan_ this, this).
Proof.
  intros Hpose Hplan Hgoal Hdist Htime. unfold makePlan. rewrite Hpose.
  rewrite (must_make_plan_false this goal robot_pose) by assumption. reflexivity.
Qed.

(** C1, as the code has it: a request that must make a plan overwrites the
    cache whether the cycle succeeds or not.  The previous goal becomes the
    requested goal, the previous plan becomes the returned plan, which is the
    empty plan when the cycle fails, and the recorded robot pose becomes the
    current one.  A request that reuses the old plan, or that has no robot
    pose, keeps the cache. *)
Theorem makePlan_cache_update (this this' : SBPLLatticePlanner)
  (costmap_ros_ : Costmap2DROS) (start goal : PoseStamped)
  (plan plan' : list PoseStamped) (ok : bool) :
  makePlan this costmap_ros_ start goal plan = Some (ok, plan', this') →
  match getRobotPose costmap_ros_ with
  | None => cache this' = cache this
  | Some robot_pose =>
      if must_make_plan this goal robot_pose
      then cache this' = (plan', goal, robot_pose) ∧ (ok = false → plan' = [])
      else cache this' = cache this
  end.
Proof.
  unfold makePlan. destruct (getRobotPose costmap_ros_) as [robot_pose|].
  - destruct (must_make_plan this goal robot_pose); simpl.
    + destruct (makePlanInternal _ costmap_ros_ start _ plan)
        as [[[ok1 plan1] this1]|] eqn:Hint; [|discriminate].
      intros Hres. injection Hres as <- <- <-.
      destruct (makePlanInternal_cache _ _ _ _ _ _ _ _ Hint) as [Hc Hf].
      split; [|exact Hf]. unfold cache in *. simpl in *.
      injection Hc as _ Hgoal _. rewrite Hgoal. reflexivity.
    + intros Hres. injection Hres as <- <- <-. reflexivity.
  - intros Hres. injection Hres as <- <- <-. reflexivity.
Qed.

End CacheFacts.

(** C10 on a world without a robot pose: the caller's plan comes back. *)
Lemma makePlan_without_robot_pose_witness :
  @makePlan costmap_2d_values axis_msglib (scripted_engine 1) cached_planner
    (example_world None (λ _ _, 0)) (pose_at 0 1) (pose_at 6 0) [pose_at 9 9]
  = Some (false, [pose_at 9 9], cached_planner).
Proof.
  apply (@makePlan_without_robot_pose costmap_2d_values axis_msglib (scripted_engine 1)).
  reflexivity.
Defined.

(** C3 on the cached planner: the cached goal is asked for again one second
    later from the same place. *)
Lemma makePlan_reuses_cached_plan_witness :
  @makePlan costmap_2d_values axis_msglib (scripted_engine 1) cached_planner
    world_after_1s (pose_at 0 1) (pose_at 5 0) [pose_at 9 9]
  = Some (true, [pose_at 1 0], cached_planner).
Proof.
  apply (@makePlan_reuses_cached_plan costmap_2d_values axis_msglib (scripted_engine 1)
           cached_planner world_after_1s (pose_at 0 1) (pose_at 5 0) (pose_at 0 1)).
  - reflexivity.
  - discriminate.
  - vm_compute. reflexivity.
  - vm_compute. reflexivity.
  - vm_compute. reflexivity.
Defined.

(** C1 refuted as stated: the goal has changed, the search runs ([replan] is the
    last call on the engine before the statistics are read) and finds nothing,
    [makePlan] returns false, and the cache that held a plan for the goal at
    x = 5 now holds the empty plan, the goal at x = 6 and the current robot
    pose. *)
Lemma failed_search_overwrites_cache :
  cache cached_planner = ([pose_at 1 0], pose_at 5 0, pose_at 0 0)
  ∧ match request_new_goal 0 with
    | Some (successful, plan, this') =>
        successful = false
        ∧ engine_calls this'
          = [Call_SetStart 0 0 0; Call_set_start 1; Call_SetGoal 6 0 0; Call_set_goal 2;
             Call_set_initialsolution_eps 3; Call_set_search_mode false;
             Call_replan 10; Call_get_stats]
        ∧ cache this' = ([], pose_at 6 0, pose_at 0 1)
    | None => False
    end.
Proof. split; [reflexivity|]. vm_compute. repeat split. Qed.

(** C1, as the code has it, on the same failed request. *)
Lemma makePlan_cache_update_witness :
  ∃ this' : SBPLLatticePlanner,
    request_new_goal 0 = Some (false, [], this')
    ∧ cache this' = ([], pose_at 6 0, pose_at 0 1).
Proof.
  assert (Hrun : ∃ this', request_new_goal 0 = Some (false, [], this'))
    by (eexists; vm_compute; reflexivity).
  destruct Hrun as [this' Hrun]. exists this'. split; [exact Hrun|].
  pose proof (@makePlan_cache_update costmap_2d_values axis_msglib (scripted_engine 0)
                cached_planner this' world_after_1s (pose_at 0 1) (pose_at 6 0)
                [pose_at 9 9] [] false Hrun) as Hcache.
  simpl in Hcache.
  replace (@must_make_plan axis_msglib cached_planner (pose_at 6 0) (pose_at 0 1))
    with true in Hcache by (vm_compute; reflexivity).
  exact (proj1 Hcache).
Defined.

(** ** The path post-processor *)

Lemma length_main_pass (rough_plan : list PoseStamped) (W : Z) :
  length (main_pass rough_plan W) = length rough_plan.
Proof.
  unfold main_pass. rewrite length_map, length_seqZ. apply Nat2Z.id.
Qed.





(** ** The cycle and degenerate solutions *)

Section CycleFacts.
Context `{CostValues} `{MsgLib} `{SBPL}.

Lemma length_overwrite_orientation_at (plan : list PoseStamped) (i : Z) :
  length (overwrite_orientation_at plan i) = length plan.
Proof. unfold overwrite_orientation_at. apply length_insert. Qed.

Lemma length_overwrite_orientation (plan : list PoseStamped) :
  length (overwrite_orientation plan) = length plan.
Proof.
  unfold overwrite_orientation.
  generalize (seqZ 0 (to_size_t (Z.of_nat (length plan) - 1))) as indices.
  intros indices. revert plan.
  induction indices as [|i indices IH]; intros plan; [reflexivity|].
  cbn [fold_left]. rewrite IH. apply length_overwrite_orientation_at.
Qed.

(** The padded lattice path always has a point. *)
Lemma pad_empty_path_nonempty (costmap : Costmap2D) (start : PoseStamped) (theta : float)
  (sbpl_path : list EnvNAVXYTHETALAT3Dpt_t) :
  pad_empty_path costmap start theta sbpl_path ≠ [].
Proof.
  unfold pad_empty_path. destruct sbpl_path as [|pt rest]; simpl; discriminate.
Qed.

(** The plan made from a non-empty lattice path is not empty. *)
Lemma post_processed_nonempty (costmap_ros_ : Costmap2DROS) (start : PoseStamped)
  (t : Time) (sbpl_path : list EnvNAVXYTHETALAT3Dpt_t) (W : Z) :
  sbpl_path ≠ [] →
  overwrite_orientation (smooth (map (rough_pose costmap_ros_ start t) sbpl_path) W) ≠ [].
Proof.
  intros Hpath Hplan. apply (f_equal length) in Hplan.
  rewrite length_overwrite_orientation in Hplan. unfold smooth in Hplan.
  cbn [app] in Hplan. rewrite length_app, length_main_pass, length_map in Hplan.
  destruct sbpl_path; [congruence|]. simpl in Hplan. lia.
Qed.

(** The search is started only after the notification: once start and goal are
    set and the notification block has run to its end, the history of the
    cycle is the history of the notification followed by the two settings of
    the search and by [replan]. *)
Lemma plan_cycle_replans_after_notification (this : SBPLLatticePlanner)
  (costmap_ros_ : Costmap2DROS) (start goal : PoseStamped)
  (calls1 calls2 calls3 : list EngineCall) :
  let costmap := getCostmap costmap_ros_ in
  set_start_state (engine_calls this)
    (pt_x (position (pose start)) - getOriginX costmap)%float
    (pt_y (position (pose start)) - getOriginY costmap)%float
    (2 * atan2 (q_z (orientation (pose start))) (q_w (orientation (pose start))))%float
  = (calls1, true) →
  set_goal_state calls1
    (pt_x (position (pose goal)) - getOriginX costmap)%float
    (pt_y (position (pose goal)) - getOriginY costmap)%float
    (2 * atan2 (q_z (orientation (pose goal))) (q_w (orientation (pose goal))))%float
  = (calls2, true) →
  notify_changes this (synchronize this costmap (Grid2D this) calls2)
  = (calls3, Returns ()) →
  ∃ rest : list EngineCall,
    engine_calls (plan_cycle this costmap_ros_ start goal).2
    = calls3
      ++ [Call_set_initialsolution_eps (initial_epsilon_ this);
          Call_set_search_mode false; Call_replan (allocated_time_ this)]
      ++ rest.
Proof.
  intros costmap Hstart Hgoal Hnotify. unfold plan_cycle. fold costmap.
  rewrite Hstart. cbn [negb]. rewrite Hgoal. cbn [negb]. rewrite Hnotify.
  destruct (replan _) as [[[ret ids] cost]|].
  - destruct (ret =? 0).
    + exists [Call_get_stats]. simpl. now rewrite <- app_assoc.
    + destruct (ConvertStateIDPathintoXYThetaPath _) as [sbpl_path|].
      * exists [Call_ConvertStateIDPathintoXYThetaPath ids; Call_get_stats].
        simpl. now rewrite <- !app_assoc.
      * exists [Call_ConvertStateIDPathintoXYThetaPath ids].
        simpl. now rewrite <- !app_assoc.
  - exists []. reflexivity.
Qed.

(** A cycle that returns true returns the post-processed padded path. *)
Lemma plan_cycle_success (this this' : SBPLLatticePlanner) (costmap_ros_ : Costmap2DROS)
  (start goal : PoseStamped) (plan' : list PoseStamped) :
  plan_cycle this costmap_ros_ start goal = (true, plan', this') →
  ∃ sbpl_path : list EnvNAVXYTHETALAT3Dpt_t,
    plan'
    = overwrite_orientation
        (smooth
           (map (rough_pose costmap_ros_ start (now costmap_ros_))
              (pad_empty_path (getCostmap costmap_ros_) start
                 (2 * atan2 (q_z (orientation (pose start)))
                        (q_w (orientation (pose start))))%float sbpl_path))
           (smooth_window_ this)).
Proof.
  unfold plan_cycle.
  repeat match goal with
         | |- context [let (_, _) := ?p in _] => destruct p
         | |- context [if ?b then _ else _] => destruct b
         | |- context [match ?o with Returns _ => _ | Throws => _ end] => destruct o
         end; simpl; intros Hres; try discriminate.
  injection Hres as <- _. eexists. reflexivity.
Qed.


End CycleFacts.


(** ** The goal clamper *)

Section ClampFacts.
Context `{MsgLib}.


End ClampFacts.


(** * Further properties *)

(** ** The smoothing window *)

(** X1: the inner loop of the main pass visits exactly the indices within [W] of
    [i] that lie in the path, [i] among them, so the count it divides by is at
    least 1. *)
Theorem main_window_bounds (N W i : Z) :
  0 ≤ W → W < 2 ^ 31 → 0 ≤ i → i < N → N < 2 ^ 31 →
  (∀ j : Z, j ∈ main_window N W i ↔ Z.max 0 (i - W) ≤ j ≤ Z.min (N - 1) (i + W))
  ∧ i ∈ main_window N W i
  ∧ Z.of_nat (length (main_window N W i))
    = Z.min (N - 1) (i + W) - Z.max 0 (i - W) + 1.
Proof.
  intros HW HW31 Hi HiN HN.
  assert (Hmem : ∀ j : Z,
             j ∈ main_window N W i ↔ Z.max 0 (i - W) ≤ j ≤ Z.min (N - 1) (i + W)).
  { intros j. unfold main_window, to_size_t.
    rewrite (Z.mod_small (i + W)) by lia. rewrite (Z.mod_small (N - 1)) by lia.
    rewrite elem_of_seqZ.
    destruct (Z.ltb_spec (i - W) 0), (Z.ltb_spec (i + W) N); lia. }
  split; [exact Hmem|]. split; [apply Hmem; lia|].
  unfold main_window, to_size_t.
  rewrite (Z.mod_small (i + W)) by lia. rewrite (Z.mod_small (N - 1)) by lia.
  rewrite length_seqZ.
  destruct (Z.ltb_spec (i - W) 0), (Z.ltb_spec (i + W) N); lia.
Qed.

(** In a path of 5 poses with a window of 1 the pose at index 2 is averaged
    over the indices 1, 2, 3. *)
Lemma main_window_bounds_witness :
  main_window 5 1 2 = [1; 2; 3] ∧ 2 ∈ main_window 5 1 2.
Proof.
  split; [reflexivity|].
  apply (main_window_bounds 5 1 2); lia.
Defined.

(** ** The heading pass *)

Section HeadingFacts.
Context `{MsgLib}.

(** One step of the heading pass keeps every header and position. *)
Lemma overwrite_orientation_at_frame (plan : list PoseStamped) (i k : Z) :
  0 ≤ i → 0 ≤ k →
  header (at_index (overwrite_orientation_at plan i) k) = header (at_index plan k)
  ∧ position (pose (at_index (overwrite_orientation_at plan i) k))
    = position (pose (at_index plan k)).
Proof.
  intros Hi Hk. unfold overwrite_orientation_at, at_index.
  destruct (decide (Z.to_nat i = Z.to_nat k)) as [Heq|Hne].
  - rewrite <- Heq. destruct (plan !! Z.to_nat i) as [a|] eqn:Ha.
    + rewrite list_lookup_insert_eq by (apply lookup_lt_Some in Ha; exact Ha).
      simpl. split; reflexivity.
    + rewrite list_insert_ge by (apply lookup_ge_None; exact Ha).
      rewrite Ha. split; reflexivity.
  - rewrite list_lookup_insert_ne by assumption. split; reflexivity.
Qed.

(** One step leaves the poses at the other indices as they are. *)
Lemma overwrite_orientation_at_other (plan : list PoseStamped) (i k : Z) :
  0 ≤ i → 0 ≤ k → k ≠ i →
  at_index (overwrite_orientation_at plan i) k = at_index plan k.
Proof.
  intros Hi Hk Hne. unfold overwrite_orientation_at, at_index.
  rewrite list_lookup_insert_ne by lia. reflexivity.
Qed.

(** The heading to the next pose reads positions only. *)
Lemma heading_to_next_ext (plan plan' : list PoseStamped) (i : Z) :
  position (pose (at_index plan' i)) = position (pose (at_index plan i)) →
  position (pose (at_index plan' (i + 1))) = position (pose (at_index plan (i + 1))) →
  heading_to_next plan' i = heading_to_next plan i.
Proof. intros Ha Hb. unfold heading_to_next. rewrite Ha, Hb. reflexivity. Qed.

(** The loop over any list of indices of the plan. *)
Lemma overwrite_orientation_fold (indices : list Z) (plan : list PoseStamped) :
  (∀ i, i ∈ indices → 0 ≤ i < Z.of_nat (length plan)) →
  let plan' := fold_left overwrite_orientation_at indices plan in
  ∀ k : Z, 0 ≤ k →
    header (at_index plan' k) = header (at_index plan k)
    ∧ position (pose (at_index plan' k)) = position (pose (at_index plan k))
    ∧ (k ∈ indices →
       orientation (pose (at_index plan' k)) = heading_to_next plan k)
    ∧ (k ∉ indices → at_index plan' k = at_index plan k).
Proof.
  revert plan. induction indices as [|i indices IH]; intros plan Hrange plan' k Hk.
  - subst plan'. simpl. split; [reflexivity|]. split; [reflexivity|].
    split; [intros Hin; inversion Hin | reflexivity].
  - subst plan'. cbn [fold_left].
    assert (Hi : 0 ≤ i < Z.of_nat (length plan))
      by (apply Hrange, elem_of_cons; now left).
    assert (Hrange' : ∀ j, j ∈ indices →
              0 ≤ j < Z.of_nat (length (overwrite_orientation_at plan i))).
    { intros j Hj. unfold overwrite_orientation_at. rewrite length_insert.
      apply Hrange, elem_of_cons. now right. }
    pose proof (IH (overwrite_orientation_at plan i) Hrange') as IH'.
    simpl in IH'.
    destruct (IH' k Hk) as (Hh & Hp & Hin & Hout).
    destruct (overwrite_orientation_at_frame plan i k) as [Hh1 Hp1]; [lia|lia|].
    split; [rewrite Hh; exact Hh1|]. split; [rewrite Hp; exact Hp1|].
    assert (Hstep : orientation (pose (at_index (overwrite_orientation_at plan i) i))
                    = heading_to_next plan i).
    { unfold overwrite_orientation_at, at_index.
      rewrite list_lookup_insert_eq by lia. reflexivity. }
    split.
    + intros Hk'. destruct (decide (k ∈ indices)) as [Hki|Hki].
      * rewrite (Hin Hki). apply heading_to_next_ext.
        -- apply (overwrite_orientation_at_frame plan i k); lia.
        -- apply (overwrite_orientation_at_frame plan i (k + 1)); lia.
      * rewrite (Hout Hki). apply elem_of_cons in Hk' as [->|Hk']; [|contradiction].
        exact Hstep.
    + intros Hk'. apply not_elem_of_cons in Hk' as [Hne Hki].
      rewrite (Hout Hki). apply overwrite_orientation_at_other; lia.
Qed.

(** X2: the heading pass on a plan of at least one pose: every pose keeps its
    header and its position, every pose but the last gets the heading towards
    the pose after it, and the last pose is left as it is. *)
Theorem overwrite_orientation_spec (plan : list PoseStamped) (k : Z) :
  plan ≠ [] → Z.of_nat (length plan) < 2 ^ 63 →
  0 ≤ k → k < Z.of_nat (length plan) →
  header (at_index (overwrite_orientation plan) k) = header (at_index plan k)
  ∧ position (pose (at_index (overwrite_orientation plan) k))
    = position (pose (at_index plan k))
  ∧ (k < Z.of_nat (length plan) - 1 →
     orientation (pose (at_index (overwrite_orientation plan) k))
     = heading_to_next plan k)
  ∧ (k = Z.of_nat (length plan) - 1 →
     at_index (overwrite_orientation plan) k = at_index plan k).
Proof.
  intros Hne Hlen Hk HkN. unfold overwrite_orientation.
  assert (Hpos : 0 < Z.of_nat (length plan)) by (destruct plan; [congruence|simpl; lia]).
  assert (Hsz : to_size_t (Z.of_nat (length plan) - 1) = Z.of_nat (length plan) - 1)
    by (apply Z.mod_small; lia).
  rewrite Hsz.
  assert (Hrange : ∀ i, i ∈ seqZ 0 (Z.of_nat (length plan) - 1) →
            0 ≤ i < Z.of_nat (length plan))
    by (intros i Hi; apply elem_of_seqZ in Hi; lia).
  destruct (overwrite_orientation_fold _ plan Hrange k Hk) as (Hh & Hp & Hin & Hout).
  split; [exact Hh|]. split; [exact Hp|]. split.
  - intros Hlt. apply Hin, elem_of_seqZ. lia.
  - intros Hlast. apply Hout. rewrite elem_of_seqZ. lia.
Qed.

End HeadingFacts.

(** The heading pass on the three rough poses, at index 1. *)
Lemma overwrite_orientation_spec_witness :
  position (pose (at_index (@overwrite_orientation axis_msglib rough_012) 1))
  = position (pose (pose_at 1 0)).
Proof.
  destruct (@overwrite_orientation_spec axis_msglib rough_012 1) as (_ & Hp & _);
    [discriminate | simpl; lia | lia | simpl; lia |].
  exact Hp.
Defined.

(** ** More on the incremental scan *)

Section ScanFacts.
Context `{CostValues}.
Variable this : SBPLLatticePlanner.
Variable costmap : Costmap2D.

(** The [UpdateCost] call the scan makes for a changed cell. *)
Let update (c : nav2dcell_t) : EngineCall :=
  Call_UpdateCost c.1 c.2 (costMapCostToSBPLCost this (getCost costmap c.1 c.2)).

(** Over any list of cells, the scan tells the engine the new cost of each cell
    it records, in the order in which it records them. *)
Lemma sync_cells_calls (cells : list nav2dcell_t) (st : SyncState) :
  let st' := fold_left (λ st c, sync_cell this costmap c.1 c.2 st) cells st in
  ∃ new : list nav2dcell_t,
    changedcellsV st' = changedcellsV st ++ new
    ∧ sync_calls st' = sync_calls st ++ map update new.
Proof.
  revert st. induction cells as [|c cells IH]; intros st.
  - exists []. simpl. now rewrite !app_nil_r.
  - cbn [fold_left].
    destruct (IH (sync_cell this costmap c.1 c.2 st)) as (new & Hch & Hcalls).
    assert (Hstep : ∃ new0 : list nav2dcell_t,
               changedcellsV (sync_cell this costmap c.1 c.2 st)
               = changedcellsV st ++ new0
               ∧ sync_calls (sync_cell this costmap c.1 c.2 st)
                 = sync_calls st ++ map update new0).
    { unfold sync_cell.
      destruct (GetMapCost (sync_grid st) c.1 c.2
                =? costMapCostToSBPLCost this (getCost costmap c.1 c.2)).
      - exists []. simpl. now rewrite !app_nil_r.
      - exists [c]. destruct c. split; reflexivity. }
    destruct Hstep as (new0 & Hch0 & Hcalls0).
    exists (new0 ++ new). rewrite Hch, Hcalls, Hch0, Hcalls0, map_app, !app_assoc.
    split; reflexivity.
Qed.

(** X3: the calls of the scan are the calls it started from followed by one
    [UpdateCost] for every changed cell, with the mapped cost of the live grid,
    in the order of [changedcellsV]: no other cell is sent to the engine. *)
Theorem synchronize_calls (grid : gmap (Z * Z) Z) (calls : list EngineCall) :
  sync_calls (synchronize this costmap grid calls)
  = calls
    ++ map (λ c, Call_UpdateCost c.1 c.2
                   (costMapCostToSBPLCost this (getCost costmap c.1 c.2)))
         (changedcellsV (synchronize this costmap grid calls)).
Proof.
  unfold synchronize. rewrite for_each_cell_grid_cells.
  match goal with
  | |- context [fold_left _ _ ?s0] =>
      destruct (sync_cells_calls (grid_cells costmap) s0) as (new & Hch & Hcalls)
  end.
  simpl in Hch, Hcalls. rewrite Hcalls, Hch. reflexivity.
Qed.

(** A scan over cells that the mirror already has right changes nothing. *)
Lemma sync_cells_fixpoint (cells : list nav2dcell_t) (st : SyncState) :
  (∀ c, c ∈ cells →
     GetMapCost (sync_grid st) c.1 c.2
     = costMapCostToSBPLCost this (getCost costmap c.1 c.2)) →
  fold_left (λ st c, sync_cell this costmap c.1 c.2 st) cells st = st.
Proof.
  induction cells as [|c cells IH]; intros Hsame; [reflexivity|].
  cbn [fold_left].
  assert (Hc : sync_cell this costmap c.1 c.2 st = st).
  { unfold sync_cell. rewrite (Hsame c) by (apply elem_of_cons; now left).
    now rewrite Z.eqb_refl. }
  rewrite Hc. apply IH. intros c' Hc'. apply Hsame, elem_of_cons. now right.
Qed.

(** X4: a second scan of the same costmap right after the first finds no changed
    cell, counts nothing, makes no call and leaves the mirror as it is. *)
Theorem synchronize_twice (grid : gmap (Z * Z) Z) (calls : list EngineCall) :
  let st := synchronize this costmap grid calls in
  let st2 := synchronize this costmap (sync_grid st) (sync_calls st) in
  changedcellsV st2 = [] ∧ allCount st2 = 0
  ∧ sync_grid st2 = sync_grid st ∧ sync_calls st2 = sync_calls st.
Proof.
  intros st st2.
  assert (Hsame : ∀ c, c ∈ grid_cells costmap →
            GetMapCost (sync_grid st) c.1 c.2
            = costMapCostToSBPLCost this (getCost costmap c.1 c.2)).
  { intros c Hc. subst st. unfold synchronize. rewrite for_each_cell_grid_cells.
    match goal with
    | |- context [fold_left _ _ ?s0] =>
        destruct (sync_cells_spec this costmap (grid_cells costmap) s0
                    (NoDup_grid_cells costmap)) as (Hin & _)
    end.
    apply Hin, Hc. }
  assert (Heq : st2 = {| sync_grid := sync_grid st; sync_calls := sync_calls st;
                         offOnCount := 0; onOffCount := 0; allCount := 0;
                         changedcellsV := [] |}).
  { subst st2. unfold synchronize at 1. rewrite for_each_cell_grid_cells.
    apply sync_cells_fixpoint. exact Hsame. }
  rewrite Heq. repeat split; reflexivity.
Qed.

(** The two diagnostic counters count disjoint kinds of change. *)
Lemma sync_cell_counters (ix iy : Z) (st : SyncState) :
  0 ≤ offOnCount st → 0 ≤ onOffCount st →
  offOnCount st + onOffCount st ≤ allCount st →
  let st' := sync_cell this costmap ix iy st in
  0 ≤ offOnCount st' ∧ 0 ≤ onOffCount st'
  ∧ offOnCount st' + onOffCount st' ≤ allCount st'.
Proof.
  intros Hoff Hon Hsum. unfold sync_cell.
  destruct (_ =? _); [repeat split; assumption|]. simpl.
  destruct (GetMapCost (sync_grid st) ix iy =? costMapCostToSBPLCost this LETHAL_OBSTACLE),
    (GetMapCost (sync_grid st) ix iy
     =? costMapCostToSBPLCost this INSCRIBED_INFLATED_OBSTACLE),
    (costMapCostToSBPLCost this (getCost costmap ix iy)
     =? costMapCostToSBPLCost this LETHAL_OBSTACLE),
    (costMapCostToSBPLCost this (getCost costmap ix iy)
     =? costMapCostToSBPLCost this INSCRIBED_INFLATED_OBSTACLE); simpl; lia.
Qed.

(** X5: of the changed cells, those that became an obstacle and those that ceased
    to be one are counted apart: the two counters are not negative and their
    sum is at most the number of changed cells. *)
Theorem synchronize_counters (grid : gmap (Z * Z) Z) (calls : list EngineCall) :
  let st := synchronize this costmap grid calls in
  0 ≤ offOnCount st ∧ 0 ≤ onOffCount st
  ∧ offOnCount st + onOffCount st ≤ Z.of_nat (length (changedcellsV st)).
Proof.
  intros st. subst st. rewrite <- (synchronize_allCount this costmap grid calls).
  unfold synchronize. rewrite for_each_cell_grid_cells.
  match goal with
  | |- context [fold_left _ ?l ?s0] =>
      assert (Hinv : 0 ≤ offOnCount s0 ∧ 0 ≤ onOffCount s0
                     ∧ offOnCount s0 + onOffCount s0 ≤ allCount s0)
        by (simpl; lia);
      generalize dependent s0; generalize l
  end.
  intros cells. induction cells as [|c cells IH]; intros s0 Hinv; [exact Hinv|].
  cbn [fold_left]. apply IH. destruct Hinv as (Hoff & Hon & Hsum).
  now apply sync_cell_counters.
Qed.

End ScanFacts.

(** ** Initialization *)

Section InitializeFacts.
Context `{CostValues} `{MsgLib} `{SBPL}.

(** The mapper reads the three cost fields of the planner only. *)
Lemma costMapCostToSBPLCost_ext (this this' : SBPLLatticePlanner) (newcost : Z) :
  lethal_obstacle_ this' = lethal_obstacle_ this →
  inscribed_inflated_obstacle_ this' = inscribed_inflated_obstacle_ this →
  sbpl_cost_multiplier_ this' = sbpl_cost_multiplier_ this →
  costMapCostToSBPLCost this' newcost = costMapCostToSBPLCost this newcost.
Proof.
  intros Hl Hi Hm. unfold costMapCostToSBPLCost. rewrite Hl, Hi, Hm. reflexivity.
Qed.

(** The seeding loop over a list of cells: every cell of the list ends with
    the mapped cost of the live grid, every other cell is untouched. *)
Lemma seed_cells_spec (this : SBPLLatticePlanner) (costmap : Costmap2D)
  (cells : list nav2dcell_t) (st : gmap (Z * Z) Z * list EngineCall) :
  let st' := fold_left (λ st c, seed_cell this costmap c.1 c.2 st) cells st in
  (∀ c, c ∈ cells →
     GetMapCost st'.1 c.1 c.2 = costMapCostToSBPLCost this (getCost costmap c.1 c.2))
  ∧ (∀ c, c ∉ cells → GetMapCost st'.1 c.1 c.2 = GetMapCost st.1 c.1 c.2).
Proof.
  revert st. induction cells as [|c cells IH]; intros st.
  - simpl. split; [intros c Hc; inversion Hc | reflexivity].
  - cbn [fold_left]. destruct (IH (seed_cell this costmap c.1 c.2 st)) as [IHin IHout].
    split.
    + intros c0 Hc0. destruct (decide (c0 ∈ cells)) as [Hin|Hout]; [now apply IHin|].
      rewrite (IHout c0 Hout). apply elem_of_cons in Hc0 as [->|Hc0]; [|contradiction].
      unfold seed_cell, GetMapCost, UpdateCost. simpl.
      destruct c. simpl. now rewrite lookup_insert_eq.
    + intros c0 Hc0. apply not_elem_of_cons in Hc0 as [Hne Hout].
      rewrite (IHout c0 Hout). unfold seed_cell, GetMapCost, UpdateCost. simpl.
      destruct c, c0. simpl. rewrite lookup_insert_ne by congruence. reflexivity.
Qed.

(** The derived multiplier is a non-zero byte. *)
Lemma multiplier_range (inscribed : Z) :
  0 ≤ INSCRIBED_INFLATED_OBSTACLE < 255 → 0 < inscribed →
  to_uchar (INSCRIBED_INFLATED_OBSTACLE / inscribed + 1)
  = INSCRIBED_INFLATED_OBSTACLE / inscribed + 1
  ∧ 0 < INSCRIBED_INFLATED_OBSTACLE / inscribed + 1 < 256.
Proof.
  intros HI Hins.
  assert (0 ≤ INSCRIBED_INFLATED_OBSTACLE / inscribed) by (apply Z.div_pos; lia).
  assert (INSCRIBED_INFLATED_OBSTACLE / inscribed ≤ INSCRIBED_INFLATED_OBSTACLE)
    by (apply Z.div_le_upper_bound; nia).
  split; [apply Z.mod_small|]; lia.
Qed.

(** X6: an initialization that returns leaves the planner initialized, with the
    cost thresholds derived from the [lethal_obstacle] parameter (the
    inscribed threshold one below the lethal one and not 0, the multiplier a
    non-zero byte, so the division of the cost mapper is defined), the
    dimensions and the footprint of the costmap, one of the two supported
    planner types and the supported environment type. *)
Theorem initialize_establishes (this this' : SBPLLatticePlanner)
  (costmap_ros : Costmap2DROS) :
  initialized_ this = false →
  0 ≤ INSCRIBED_INFLATED_OBSTACLE < 255 →
  initialize this costmap_ros = Some this' →
  initialized_ this' = true
  ∧ lethal_obstacle_ this' = to_uchar (param_lethal_obstacle (private_nh costmap_ros))
  ∧ inscribed_inflated_obstacle_ this' = to_uchar (lethal_obstacle_ this' - 1)
  ∧ 0 < inscribed_inflated_obstacle_ this' < 256
  ∧ sbpl_cost_multiplier_ this'
    = INSCRIBED_INFLATED_OBSTACLE / inscribed_inflated_obstacle_ this' + 1
  ∧ 0 < sbpl_cost_multiplier_ this' < 256
  ∧ current_env_width_ this' = getSizeInCellsX (getCostmap costmap_ros)
  ∧ current_env_height_ this' = getSizeInCellsY (getCostmap costmap_ros)
  ∧ footprint_ this' = getRobotFootprint costmap_ros
  ∧ (planner_type_ this' = "ARAPlanner" ∨ planner_type_ this' = "ADPlanner")
  ∧ environment_type_ this' = "XYThetaLattice".
Proof.
  intros Huninit HI Hinit. unfold initialize in Hinit. rewrite Huninit in Hinit.
  destruct (Z.eqb_spec (to_uchar (to_uchar (param_lethal_obstacle
                                              (private_nh costmap_ros)) - 1)) 0)
    as [|Hins]; [discriminate|].
  assert (Hins' : 0 < to_uchar (to_uchar (param_lethal_obstacle
                                            (private_nh costmap_ros)) - 1) < 256).
  { unfold to_uchar in *.
    pose proof (Z.mod_pos_bound
                  (param_lethal_obstacle (private_nh costmap_ros) mod 256 - 1) 256).
    lia. }
  destruct (multiplier_range _ HI (proj1 Hins')) as [Hmul Hmulr].
  destruct (String.eqb_spec "XYThetaLattice"
              (param_environment_type (private_nh costmap_ros))) as [Henv|];
    [|discriminate].
  cbn [negb] in Hinit.
  destruct (SetEnvParameter _); [|discriminate]. cbn [negb] in Hinit.
  destruct (SetEnvParameter _); [|discriminate]. cbn [negb] in Hinit.
  destruct (InitializeEnv _) as [[]|]; try discriminate.
  destruct (String.eqb_spec "ARAPlanner"
              (param_planner_type (private_nh costmap_ros))) as [Hara|].
  - injection Hinit as <-. simpl. rewrite Hmul.
    repeat split; try reflexivity; try lia; auto.
  - destruct (String.eqb_spec "ADPlanner"
                (param_planner_type (private_nh costmap_ros))) as [Had|];
      [|discriminate].
    injection Hinit as <-. simpl. rewrite Hmul.
    repeat split; try reflexivity; try lia; auto.
Qed.

(** X7: an initialization that returns has written the mapped cost of every cell
    of the costmap into the fresh mirror, and nothing outside the costmap. *)
Theorem initialize_seeds_mirror (this this' : SBPLLatticePlanner)
  (costmap_ros : Costmap2DROS) (ix iy : Z) :
  initialized_ this = false →
  initialize this costmap_ros = Some this' →
  (0 ≤ ix < getSizeInCellsX (getCostmap costmap_ros)
   ∧ 0 ≤ iy < getSizeInCellsY (getCostmap costmap_ros) →
   GetMapCost (Grid2D this') ix iy
   = costMapCostToSBPLCost this' (getCost (getCostmap costmap_ros) ix iy))
  ∧ (¬ (0 ≤ ix < getSizeInCellsX (getCostmap costmap_ros)
        ∧ 0 ≤ iy < getSizeInCellsY (getCostmap costmap_ros)) →
     GetMapCost (Grid2D this') ix iy = 0).
Proof.
  intros Huninit Hinit. unfold initialize in Hinit. rewrite Huninit in Hinit.
  destruct (_ =? 0); [discriminate|].
  destruct (negb (String.eqb _ _)); [discriminate|].
  destruct (SetEnvParameter _); [|discriminate]. cbn [negb] in Hinit.
  destruct (SetEnvParameter _); [|discriminate]. cbn [negb] in Hinit.
  destruct (InitializeEnv _) as [[]|]; try discriminate.
  assert (Hseeded : ∀ (this1 : SBPLLatticePlanner) (calls : list EngineCall),
    (0 ≤ ix < getSizeInCellsX (getCostmap costmap_ros)
     ∧ 0 ≤ iy < getSizeInCellsY (getCostmap costmap_ros) →
     GetMapCost (for_each_cell (getCostmap costmap_ros)
                   (seed_cell this1 (getCostmap costmap_ros)) (∅, calls)).1 ix iy
     = costMapCostToSBPLCost this1 (getCost (getCostmap costmap_ros) ix iy))
    ∧ (¬ (0 ≤ ix < getSizeInCellsX (getCostmap costmap_ros)
          ∧ 0 ≤ iy < getSizeInCellsY (getCostmap costmap_ros)) →
       GetMapCost (for_each_cell (getCostmap costmap_ros)
                     (seed_cell this1 (getCostmap costmap_ros)) (∅, calls)).1 ix iy
       = 0)).
  { intros this1 calls. rewrite for_each_cell_grid_cells.
    destruct (seed_cells_spec this1 (getCostmap costmap_ros)
                (grid_cells (getCostmap costmap_ros)) (∅, calls)) as [Hin Hout].
    split.
    - intros Hrange. apply (Hin (ix, iy)). apply elem_of_grid_cells. exact Hrange.
    - intros Hrange.
      assert (Hnotin : (ix, iy) ∉ grid_cells (getCostmap costmap_ros))
        by (rewrite elem_of_grid_cells; exact Hrange).
      pose proof (Hout (ix, iy) Hnotin) as Ho. simpl in Ho. rewrite Ho.
      unfold GetMapCost. now rewrite lookup_empty. }
  destruct (String.eqb "ARAPlanner" _).
  - injection Hinit as <-. simpl. split; intros Hrange.
    + rewrite (proj1 (Hseeded _ _) Hrange). reflexivity.
    + apply (proj2 (Hseeded _ _) Hrange).
  - destruct (String.eqb "ADPlanner" _); [|discriminate].
    injection Hinit as <-. simpl. split; intros Hrange.
    + rewrite (proj1 (Hseeded _ _) Hrange). reflexivity.
    + apply (proj2 (Hseeded _ _) Hrange).
Qed.

(** X8: initialization ends the process when the environment type is not
    [XYThetaLattice] or the planner type is neither [ARAPlanner] nor
    [ADPlanner], whatever the engine answers. *)
Theorem initialize_unsupported (this : SBPLLatticePlanner) (costmap_ros : Costmap2DROS) :
  initialized_ this = false →
  param_environment_type (private_nh costmap_ros) ≠ "XYThetaLattice"
  ∨ (param_planner_type (private_nh costmap_ros) ≠ "ARAPlanner"
     ∧ param_planner_type (private_nh costmap_ros) ≠ "ADPlanner") →
  initialize this costmap_ros = None.
Proof.
  intros Huninit Hbad. unfold initialize. rewrite Huninit.
  destruct (_ =? 0); [reflexivity|].
  destruct (String.eqb_spec "XYThetaLattice"
              (param_environment_type (private_nh costmap_ros))) as [Henv|Henv];
    [|reflexivity].
  destruct Hbad as [Hbad|[Hara Had]]; [congruence|]. cbn [negb].
  destruct (SetEnvParameter _); [|reflexivity]. cbn [negb].
  destruct (SetEnvParameter _); [|reflexivity]. cbn [negb].
  destruct (InitializeEnv _) as [[]|]; try reflexivity.
  destruct (String.eqb_spec "ARAPlanner"
              (param_planner_type (private_nh costmap_ros))); [congruence|].
  destruct (String.eqb_spec "ADPlanner"
              (param_planner_type (private_nh costmap_ros))); [congruence|].
  reflexivity.
Qed.

End InitializeFacts.

(** ** The decision to plan again *)

Section DecisionFacts.
Context `{CostValues} `{MsgLib} `{SBPL}.

(** X9: a new plan is made exactly when there is no previous plan, or the goal
    differs from the previous goal, or the robot is more than 10 away from
    where the previous plan was made, or more than 10 seconds have passed
    since. *)
Theorem must_make_plan_iff (this : SBPLLatticePlanner) (goal robot_pose : PoseStamped) :
  must_make_plan this goal robot_pose = true
  ↔ previous_plan_ this = []
    ∨ PoseStamped_ne goal (previous_goal_ this) = true
    ∨ (10 <? distanceBetweenPoses robot_pose
               (robot_pose_when_plan_was_created_ this))%float = true
    ∨ (10 <? elapsed_toSec (stamp (header robot_pose))
               (stamp (header (robot_pose_when_plan_was_created_ this))))%float
      = true.
Proof.
  unfold must_make_plan.
  destruct (decide (previous_plan_ this = [])) as [Hnil|Hnil].
  - rewrite bool_decide_eq_true_2 by assumption.
    split; [intros _; now left|intros _].
    repeat match goal with |- context [if ?b then _ else _] => destruct b end;
      reflexivity.
  - rewrite bool_decide_eq_false_2 by assumption.
    destruct (PoseStamped_ne goal (previous_goal_ this));
      destruct (10 <? distanceBetweenPoses _ _)%float;
      destruct (10 <? elapsed_toSec _ _)%float; simpl; split; intros Hm;
      try reflexivity; try discriminate; auto;
      destruct Hm as [Hm|[Hm|[Hm|Hm]]]; congruence.
Qed.

(** A cycle that returns true returns a plan of at least one pose. *)
Lemma makePlanInternal_success_nonempty (this this' : SBPLLatticePlanner)
  (costmap_ros_ : Costmap2DROS) (start goal : PoseStamped)
  (plan plan' : list PoseStamped) :
  makePlanInternal this costmap_ros_ start goal plan = Some (true, plan', this') →
  plan' ≠ [].
Proof.
  unfold makePlanInternal. intros Hint.
  destruct (initialized_ this); simpl in Hint; [|discriminate].
  destruct (if do_init this costmap_ros_ then _ else _) as [this2|]; [|discriminate].
  injection Hint as Hint.
  destruct (plan_cycle_success _ _ _ _ _ _ Hint) as [sbpl_path ->].
  apply post_processed_nonempty, pad_empty_path_nonempty.
Qed.

(** X10: after a request that had a robot pose and returned false, the previous
    plan is empty, so the next request plans again whatever it asks for: a
    failure is never answered from the cache. *)
Theorem failed_request_forces_replan (this this' : SBPLLatticePlanner)
  (costmap_ros_ : Costmap2DROS) (start goal robot_pose : PoseStamped)
  (plan plan' : list PoseStamped) :
  getRobotPose costmap_ros_ = Some robot_pose →
  makePlan this costmap_ros_ start goal plan = Some (false, plan', this') →
  plan' = [] ∧ previous_plan_ this' = []
  ∧ ∀ goal2 robot_pose2 : PoseStamped, must_make_plan this' goal2 robot_pose2 = true.
Proof.
  intros Hpose Hres. unfold makePlan in Hres. rewrite Hpose in Hres.
  destruct (must_make_plan this goal robot_pose); simpl in Hres; [|discriminate].
  destruct (makePlanInternal _ costmap_ros_ start _ plan)
    as [[[ok1 plan1] this1]|] eqn:Hint; [|discriminate].
  injection Hres as -> -> <-.
  destruct (makePlanInternal_cache _ _ _ _ _ _ _ _ Hint) as [_ Hempty].
  specialize (Hempty eq_refl). subst plan'.
  split; [reflexivity|]. split; [reflexivity|].
  intros goal2 robot_pose2. unfold must_make_plan. simpl.
  repeat match goal with |- context [if ?b then _ else _] => destruct b end;
    reflexivity.
Qed.

(** X11: after a request that returned true, the same goal asked again with the
    robot pose unchanged is answered with the same plan and without touching
    the planner, provided the goal compares equal to itself and the pose is at
    distance at most 10 and at most 10 seconds from itself (all three hold for
    poses whose coordinates are numbers). *)
Theorem repeated_request_reuses_plan (this this' : SBPLLatticePlanner)
  (costmap_ros_ : Costmap2DROS) (start goal robot_pose : PoseStamped)
  (plan plan' : list PoseStamped) :
  getRobotPose costmap_ros_ = Some robot_pose →
  makePlan this costmap_ros_ start goal plan = Some (true, plan', this') →
  PoseStamped_ne goal goal = false →
  (distanceBetweenPoses robot_pose robot_pose <=? 10)%float = true →
  (elapsed_toSec (stamp (header robot_pose)) (stamp (header robot_pose)) <=? 10)%float
  = true →
  ∀ (start2 : PoseStamped) (plan2 : list PoseStamped),
    makePlan this' costmap_ros_ start2 goal plan2 = Some (true, plan', this').
Proof.
  intros Hpose Hres Hgoal Hdist Htime start2 plan2.
  unfold makePlan in Hres. rewrite Hpose in Hres.
  destruct (must_make_plan this goal robot_pose) eqn:Hmust; simpl in Hres.
  - destruct (makePlanInternal _ costmap_ros_ start _ plan)
      as [[[ok1 plan1] this1]|] eqn:Hint; [|discriminate].
    injection Hres as -> -> <-.
    pose proof (makePlanInternal_success_nonempty _ _ _ _ _ _ _ Hint) as Hne.
    destruct (makePlanInternal_cache _ _ _ _ _ _ _ _ Hint) as [Hcache _].
    unfold cache in Hcache. simpl in Hcache. injection Hcache as _ Hprev _.
    unfold makePlan. rewrite Hpose.
    rewrite must_make_plan_false; [reflexivity| | | |]; simpl; try assumption.
    rewrite Hprev. exact Hgoal.
  - injection Hres as <- <-. unfold makePlan. rewrite Hpose, Hmust. reflexivity.
Qed.

(** X12: the circumscribed cost is 0 when the costmap has no inflation layer, and
    otherwise the mapped cost of the last inflation layer among the
    plugins. *)
Theorem computeCircumscribedCost_last_layer (this : SBPLLatticePlanner)
  (costmap_ros_ : Costmap2DROS) :
  (Forall (λ layer, layer = None) (getPlugins costmap_ros_) →
   computeCircumscribedCost this costmap_ros_ = 0)
  ∧ (∀ (before after : list (option Z)) (c : Z),
       getPlugins costmap_ros_ = before ++ Some c :: after →
       Forall (λ layer, layer = None) after →
       computeCircumscribedCost this costmap_ros_ = costMapCostToSBPLCost this c).
Proof.
  assert (Hnone : ∀ (layers : list (option Z)) (r : Z),
            Forall (λ layer, layer = None) layers →
            fold_left
              (λ result layer,
                 match layer with
                 | None => result
                 | Some c => costMapCostToSBPLCost this c
                 end) layers r = r).
  { intros layers. induction layers as [|layer layers IH]; intros r Hall;
      [reflexivity|].
    apply Forall_cons in Hall as [-> Hall]. simpl. now apply IH. }
  unfold computeCircumscribedCost. split.
  - apply Hnone.
  - intros before after c -> Hall. rewrite fold_left_app. simpl. now apply Hnone.
Qed.

End DecisionFacts.

(** ** The state change query *)

(** X13: the predecessors are asked from the environment lazily and at most once
    while the answer is not empty: a query built for no changed cell never
    asks; after an answer that is not empty, another call returns the same
    answer without asking; an empty answer is asked for again. *)
Theorem getPredecessors_memoized (GetPredsofChangedEdges : list nav2dcell_t → list Z)
  (changedcellsV : list nav2dcell_t) :
  let scq := new_LatticeSCQ changedcellsV in
  let first := getPredecessors GetPredsofChangedEdges scq in
  (changedcellsV = [] → first = ([], scq, false))
  ∧ (changedcellsV ≠ [] →
     first.1.1 = GetPredsofChangedEdges changedcellsV ∧ first.2 = true)
  ∧ (GetPredsofChangedEdges changedcellsV ≠ [] →
     getPredecessors GetPredsofChangedEdges first.1.2
     = (first.1.1, first.1.2, false))
  ∧ (changedcellsV ≠ [] → GetPredsofChangedEdges changedcellsV = [] →
     getPredecessors GetPredsofChangedEdges first.1.2 = ([], first.1.2, true)).
Proof.
  intros scq first. subst first scq. unfold getPredecessors, new_LatticeSCQ.
  destruct changedcellsV as [|c cells]; simpl.
  - split; [reflexivity|]. split; [congruence|].
    split; [reflexivity|congruence].
  - split; [discriminate|]. split; [split; reflexivity|].
    split.
    + intros Hans. rewrite (bool_decide_eq_false_2 _ Hans). reflexivity.
    + intros _ Hans. rewrite Hans. reflexivity.
Qed.

(** ** More on the planning cycle *)

Section MoreCycleFacts.
Context `{CostValues} `{MsgLib} `{SBPL}.

(** A cycle writes the mirror, the call history and the publications only. *)
Lemma plan_cycle_configuration (this : SBPLLatticePlanner) (costmap_ros_ : Costmap2DROS)
  (start goal : PoseStamped) :
  configuration (plan_cycle this costmap_ros_ start goal).2 = configuration this.
Proof.
  unfold plan_cycle.
  repeat match goal with
         | |- context [let (_, _) := ?p in _] => destruct p
         | |- context [if ?b then _ else _] => destruct b
         | |- context [match ?o with Returns _ => _ | Throws => _ end] => destruct o
         end; reflexivity.
Qed.

(** An initialization that returns has set the flag and the dimensions. *)
Lemma initialize_dimensions (this this' : SBPLLatticePlanner)
  (costmap_ros : Costmap2DROS) :
  initialized_ this = false →
  initialize this costmap_ros = Some this' →
  initialized_ this' = true
  ∧ current_env_width_ this' = getSizeInCellsX (getCostmap costmap_ros)
  ∧ current_env_height_ this' = getSizeInCellsY (getCostmap costmap_ros).
Proof.
  intros Huninit Hini. unfold initialize in Hini. rewrite Huninit in Hini.
  destruct (_ =? 0); [discriminate|].
  destruct (negb (String.eqb _ _)); [discriminate|].
  destruct (SetEnvParameter _); [|discriminate]. cbn [negb] in Hini.
  destruct (SetEnvParameter _); [|discriminate]. cbn [negb] in Hini.
  destruct (InitializeEnv _) as [[]|]; try discriminate.
  destruct (String.eqb "ARAPlanner" _).
  - injection Hini as <-. repeat split; reflexivity.
  - destruct (String.eqb "ADPlanner" _); [|discriminate].
    injection Hini as <-. repeat split; reflexivity.
Qed.

(** X14: after [makePlanInternal] has returned on an initialized planner, the
    planner is initialized and its environment has the dimensions of the
    costmap, whether the environment was rebuilt or not and whether the cycle
    succeeded or not. *)
Theorem makePlanInternal_dimensions (this this' : SBPLLatticePlanner)
  (costmap_ros_ : Costmap2DROS) (start goal : PoseStamped)
  (plan plan' : list PoseStamped) (ok : bool) :
  initialized_ this = true →
  makePlanInternal this costmap_ros_ start goal plan = Some (ok, plan', this') →
  initialized_ this' = true
  ∧ current_env_width_ this' = getSizeInCellsX (getCostmap costmap_ros_)
  ∧ current_env_height_ this' = getSizeInCellsY (getCostmap costmap_ros_).
Proof.
  intros Hinit Hres. unfold makePlanInternal in Hres. rewrite Hinit in Hres.
  cbn [negb] in Hres.
  assert (Hcycle : ∀ this1 : SBPLLatticePlanner,
            Some (plan_cycle this1 costmap_ros_ start goal) = Some (ok, plan', this') →
            configuration this' = configuration this1).
  { intros this1 Heq. injection Heq as Heq.
    rewrite <- (plan_cycle_configuration this1 costmap_ros_ start goal), Heq.
    reflexivity. }
  destruct (do_init this costmap_ros_) eqn:Hdo.
  - destruct (initialize _ costmap_ros_) as [this1|] eqn:Hini; [|discriminate].
    apply Hcycle in Hres. unfold configuration in Hres.
    injection Hres as -> _ _ _ _ _ _ _ _ _ _ _ _ -> -> _.
    apply (λ Hu, initialize_dimensions _ _ _ Hu Hini). reflexivity.
  - apply Hcycle in Hres. unfold configuration in Hres.
    injection Hres as -> _ _ _ _ _ _ _ _ _ _ _ _ -> -> _.
    unfold do_init in Hdo.
    destruct (Z.eqb_spec (current_env_width_ this)
                (getSizeInCellsX (getCostmap costmap_ros_)));
      destruct (Z.eqb_spec (current_env_height_ this)
                  (getSizeInCellsY (getCostmap costmap_ros_)));
      simpl in Hdo; try discriminate.
    repeat split; assumption.
Qed.

(** X15: once the start and the goal are accepted, the cycle brings the mirror up to
    date with the costmap, whatever happens to the search afterwards. *)
Theorem plan_cycle_updates_mirror (this : SBPLLatticePlanner)
  (costmap_ros_ : Costmap2DROS) (start goal : PoseStamped)
  (calls1 calls2 : list EngineCall) (ix iy : Z) :
  let costmap := getCostmap costmap_ros_ in
  set_start_state (engine_calls this)
    (pt_x (position (pose start)) - getOriginX costmap)%float
    (pt_y (position (pose start)) - getOriginY costmap)%float
    (2 * atan2 (q_z (orientation (pose start))) (q_w (orientation (pose start))))%float
  = (calls1, true) →
  set_goal_state calls1
    (pt_x (position (pose goal)) - getOriginX costmap)%float
    (pt_y (position (pose goal)) - getOriginY costmap)%float
    (2 * atan2 (q_z (orientation (pose goal))) (q_w (orientation (pose goal))))%float
  = (calls2, true) →
  0 ≤ ix < getSizeInCellsX costmap → 0 ≤ iy < getSizeInCellsY costmap →
  GetMapCost (Grid2D (plan_cycle this costmap_ros_ start goal).2) ix iy
  = costMapCostToSBPLCost this (getCost costmap ix iy).
Proof.
  intros costmap Hstart Hgoal Hx Hy.
  assert (Hgrid : Grid2D (plan_cycle this costmap_ros_ start goal).2
                  = sync_grid (synchronize this costmap (Grid2D this) calls2)).
  { unfold plan_cycle. fold costmap. rewrite Hstart. cbn [negb].
    rewrite Hgoal. cbn [negb].
    repeat match goal with
           | |- context [let (_, _) := ?p in _] => destruct p
           | |- context [if ?b then _ else _] => destruct b
           | |- context [match ?o with Returns _ => _ | Throws => _ end] => destruct o
           end; reflexivity. }
  rewrite Hgrid. unfold synchronize. rewrite for_each_cell_grid_cells.
  match goal with
  | |- context [fold_left _ _ ?s0] =>
      destruct (sync_cells_spec this costmap (grid_cells costmap) s0
                  (NoDup_grid_cells costmap)) as (Hin & _)
  end.
  apply (Hin (ix, iy)). now apply elem_of_grid_cells.
Qed.

(** X16: when the environment rejects the start with a negative identifier, the
    cycle returns false with an empty plan after that one call: the planner's
    [set_start] is not called, the mirror is not scanned and nothing is
    published. *)
Theorem plan_cycle_start_rejected (this : SBPLLatticePlanner)
  (costmap_ros_ : Costmap2DROS) (start goal : PoseStamped) (ret : Z) :
  let costmap := getCostmap costmap_ros_ in
  let call :=
    Call_SetStart (pt_x (position (pose start)) - getOriginX costmap)%float
      (pt_y (position (pose start)) - getOriginY costmap)%float
      (2 * atan2 (q_z (orientation (pose start))) (q_w (orientation (pose start))))%float in
  SetStart (engine_calls this ++ [call]) = Returns ret → ret < 0 →
  plan_cycle this costmap_ros_ start goal
  = (false, [], set_engine this (Grid2D this) (engine_calls this ++ [call])).
Proof.
  intros costmap call Hret Hneg. unfold plan_cycle, set_start_state.
  fold costmap. fold call. rewrite Hret.
  rewrite (proj2 (Z.ltb_lt ret 0) Hneg). reflexivity.
Qed.

(** X17: when [replan] returns 0 the cycle returns false with an empty plan and
    publishes one message, the statistics, with path size 0 and the cost,
    start and goal of the search. *)
Theorem plan_cycle_no_solution (this : SBPLLatticePlanner)
  (costmap_ros_ : Costmap2DROS) (start goal : PoseStamped)
  (calls1 calls2 calls3 : list EngineCall) (ids : list Z) (cost : Z) :
  let costmap := getCostmap costmap_ros_ in
  set_start_state (engine_calls this)
    (pt_x (position (pose start)) - getOriginX costmap)%float
    (pt_y (position (pose start)) - getOriginY costmap)%float
    (2 * atan2 (q_z (orientation (pose start))) (q_w (orientation (pose start))))%float
  = (calls1, true) →
  set_goal_state calls1
    (pt_x (position (pose goal)) - getOriginX costmap)%float
    (pt_y (position (pose goal)) - getOriginY costmap)%float
    (2 * atan2 (q_z (orientation (pose goal))) (q_w (orientation (pose goal))))%float
  = (calls2, true) →
  notify_changes this (synchronize this costmap (Grid2D this) calls2)
  = (calls3, Returns ()) →
  replan (calls3 ++ [Call_set_initialsolution_eps (initial_epsilon_ this);
                     Call_set_search_mode false; Call_replan (allocated_time_ this)])
  = Returns (0, ids, cost) →
  ∃ stats : SBPLLatticePlannerStats,
    (plan_cycle this costmap_ros_ start goal).1 = (false, [])
    ∧ published (plan_cycle this costmap_ros_ start goal).2
      = published this ++ [stats_pub stats]
    ∧ stats_path_size stats = 0 ∧ stats_solution_cost stats = cost
    ∧ stats_start stats = start ∧ stats_goal stats = goal.
Proof.
  intros costmap Hstart Hgoal Hnotify Hreplan. unfold plan_cycle. fold costmap.
  rewrite Hstart. cbn [negb]. rewrite Hgoal. cbn [negb]. rewrite Hnotify, Hreplan.
  simpl. eexists. repeat split; reflexivity.
Qed.

(** X18: a cycle that returns true publishes three messages: the plan it returns,
    the rough plan, which is not empty and not longer than the plan, and the
    statistics with the length of the rough plan as path size. *)
Theorem plan_cycle_publishes (this this' : SBPLLatticePlanner)
  (costmap_ros_ : Costmap2DROS) (start goal : PoseStamped) (plan' : list PoseStamped) :
  plan_cycle this costmap_ros_ start goal = (true, plan', this') →
  ∃ (rough_plan : list PoseStamped) (stats : SBPLLatticePlannerStats),
    published this'
    = published this
      ++ [plan_pub (getGlobalFrameID costmap_ros_) (now costmap_ros_) plan';
          rough_plan_pub (getGlobalFrameID costmap_ros_) (now costmap_ros_) rough_plan;
          stats_pub stats]
    ∧ rough_plan ≠ []
    ∧ (length rough_plan ≤ length plan')%nat
    ∧ stats_path_size stats = Z.of_nat (length rough_plan)
    ∧ stats_start stats = start ∧ stats_goal stats = goal.
Proof.
  unfold plan_cycle.
  repeat match goal with
         | |- context [let (_, _) := ?p in _] => destruct p
         | |- context [if ?b then _ else _] => destruct b
         | |- context [match ?o with Returns _ => _ | Throws => _ end] => destruct o
         end; simpl; intros Hres; try discriminate.
  injection Hres as <- <-. simpl.
  match goal with
  | |- context [pad_empty_path ?c ?s ?t ?p] => set (padded := pad_empty_path c s t p)
  end.
  assert (Hpad : padded ≠ []) by apply pad_empty_path_nonempty.
  eexists _, _. split; [rewrite <- app_assoc; reflexivity|].
  split; [destruct padded; [congruence|discriminate]|].
  split.
  - rewrite length_overwrite_orientation. unfold smooth. cbn [app].
    rewrite length_app, length_main_pass. lia.
  - simpl. rewrite length_map. repeat split; reflexivity.
Qed.

End MoreCycleFacts.

(** ** The further properties on the examples *)

Lemma initialize_establishes_witness :
  ∃ this' : SBPLLatticePlanner,
    @initialize costmap_2d_values (scripted_engine 1) uninitialized_planner costly_world
    = Some this'
    ∧ 0 < sbpl_cost_multiplier_ this' < 256.
Proof.
  assert (Hrun : ∃ this', @initialize costmap_2d_values (scripted_engine 1)
                            uninitialized_planner costly_world = Some this')
    by (eexists; vm_compute; reflexivity).
  destruct Hrun as [this' Hrun]. exists this'. split; [exact Hrun|].
  apply (@initialize_establishes costmap_2d_values (scripted_engine 1)
           uninitialized_planner this' costly_world); [reflexivity | simpl; lia | exact Hrun].
Defined.

Lemma initialize_seeds_mirror_witness :
  ∃ this' : SBPLLatticePlanner,
    @initialize costmap_2d_values (scripted_engine 1) uninitialized_planner costly_world
    = Some this'
    ∧ GetMapCost (Grid2D this') 1 1
      = @costMapCostToSBPLCost costmap_2d_values this' 100.
Proof.
  assert (Hrun : ∃ this', @initialize costmap_2d_values (scripted_engine 1)
                            uninitialized_planner costly_world = Some this')
    by (eexists; vm_compute; reflexivity).
  destruct Hrun as [this' Hrun]. exists this'. split; [exact Hrun|].
  apply (@initialize_seeds_mirror costmap_2d_values (scripted_engine 1)
           uninitialized_planner this' costly_world 1 1 eq_refl Hrun).
  simpl. lia.
Defined.

Lemma initialize_unsupported_witness :
  @initialize costmap_2d_values (scripted_engine 1) uninitialized_planner
    unsupported_world = None.
Proof.
  apply (@initialize_unsupported costmap_2d_values (scripted_engine 1)).
  - reflexivity.
  - right. split; discriminate.
Defined.

Lemma failed_request_forces_replan_witness :
  ∃ this' : SBPLLatticePlanner,
    request_new_goal 0 = Some (false, [], this')
    ∧ @must_make_plan axis_msglib this' (pose_at 6 0) (pose_at 0 1) = true.
Proof.
  assert (Hrun : ∃ this', request_new_goal 0 = Some (false, [], this'))
    by (eexists; vm_compute; reflexivity).
  destruct Hrun as [this' Hrun]. exists this'. split; [exact Hrun|].
  apply (@failed_request_forces_replan costmap_2d_values axis_msglib (scripted_engine 0)
           cached_planner this' world_after_1s (pose_at 0 1) (pose_at 6 0) (pose_at 0 1)
           [pose_at 9 9] [] eq_refl Hrun).
Defined.

Lemma repeated_request_reuses_plan_witness :
  ∃ (plan' : list PoseStamped) (this' : SBPLLatticePlanner),
    request_new_goal 1 = Some (true, plan', this')
    ∧ @makePlan costmap_2d_values axis_msglib (scripted_engine 1) this' world_after_1s
        (pose_at 3 3) (pose_at 6 0) [] = Some (true, plan', this').
Proof.
  assert (Hrun : ∃ plan' this', request_new_goal 1 = Some (true, plan', this'))
    by (eexists _, _; vm_compute; reflexivity).
  destruct Hrun as (plan' & this' & Hrun). exists plan', this'.
  split; [exact Hrun|].
  apply (@repeated_request_reuses_plan costmap_2d_values axis_msglib (scripted_engine 1)
           cached_planner this' world_after_1s (pose_at 0 1) (pose_at 6 0) (pose_at 0 1)
           [pose_at 9 9] plan' eq_refl Hrun);
    vm_compute; reflexivity.
Defined.

Lemma makePlanInternal_dimensions_witness :
  ∃ (ok : bool) (plan' : list PoseStamped) (this' : SBPLLatticePlanner),
    @makePlanInternal costmap_2d_values axis_msglib (scripted_engine 1) cached_planner
      costly_world (pose_at 0 1) (pose_at 6 0) [] = Some (ok, plan', this')
    ∧ current_env_width_ this' = 2.
Proof.
  assert (Hrun : ∃ ok plan' this',
             @makePlanInternal costmap_2d_values axis_msglib (scripted_engine 1)
               cached_planner costly_world (pose_at 0 1) (pose_at 6 0) []
             = Some (ok, plan', this'))
    by (eexists _, _, _; vm_compute; reflexivity).
  destruct Hrun as (ok & plan' & this' & Hrun). exists ok, plan', this'.
  split; [exact Hrun|].
  apply (@makePlanInternal_dimensions costmap_2d_values axis_msglib (scripted_engine 1)
           cached_planner this' costly_world (pose_at 0 1) (pose_at 6 0) [] plan' ok
           eq_refl Hrun).
Defined.

Lemma plan_cycle_updates_mirror_witness :
  GetMapCost
    (Grid2D (@plan_cycle costmap_2d_values axis_msglib (scripted_engine 0) cached_planner
               costly_world (pose_at 0 1) (pose_at 6 0)).2) 1 1
  = @costMapCostToSBPLCost costmap_2d_values cached_planner
      (getCost (getCostmap costly_world) 1 1).
Proof.
  eapply (@plan_cycle_updates_mirror costmap_2d_values axis_msglib (scripted_engine 0)
            cached_planner costly_world (pose_at 0 1) (pose_at 6 0)).
  - vm_compute. reflexivity.
  - vm_compute. reflexivity.
  - simpl. lia.
  - simpl. lia.
Defined.

Lemma plan_cycle_start_rejected_witness :
  (@plan_cycle costmap_2d_values axis_msglib rejecting_engine cached_planner
     costly_world (pose_at 0 1) (pose_at 6 0)).1 = (false, []).
Proof.
  rewrite (@plan_cycle_start_rejected costmap_2d_values axis_msglib rejecting_engine
             cached_planner costly_world (pose_at 0 1) (pose_at 6 0) (-1));
    [reflexivity | reflexivity | lia].
Defined.

Lemma plan_cycle_no_solution_witness :
  ∃ stats : SBPLLatticePlannerStats,
    published (@plan_cycle costmap_2d_values axis_msglib (scripted_engine 0)
                 cached_planner costly_world (pose_at 0 1) (pose_at 6 0)).2
    = [stats_pub stats]
    ∧ stats_path_size stats = 0.
Proof.
  edestruct (@plan_cycle_no_solution costmap_2d_values axis_msglib (scripted_engine 0)
               cached_planner costly_world (pose_at 0 1) (pose_at 6 0))
    as (stats & _ & Hpub & Hsize & _).
  - vm_compute. reflexivity.
  - vm_compute. reflexivity.
  - vm_compute. reflexivity.
  - vm_compute. reflexivity.
  - exists stats. split; [exact Hpub | exact Hsize].
Defined.

Lemma plan_cycle_publishes_witness :
  ∃ (plan' rough_plan : list PoseStamped) (stats : SBPLLatticePlannerStats),
    published (@plan_cycle costmap_2d_values axis_msglib (scripted_engine 1)
                 cached_planner costly_world (pose_at 0 1) (pose_at 6 0)).2
    = [plan_pub "map" {| sec := 100; nsec := 0 |} plan';
       rough_plan_pub "map" {| sec := 100; nsec := 0 |} rough_plan;
       stats_pub stats]
    ∧ stats_path_size stats = Z.of_nat (length rough_plan).
Proof.
  destruct (@plan_cycle costmap_2d_values axis_msglib (scripted_engine 1) cached_planner
              costly_world (pose_at 0 1) (pose_at 6 0)) as [[ok plan'] this'] eqn:Hrun.
  assert (Hok : ok = true).
  { apply (f_equal (λ r, r.1.1)) in Hrun. simpl in Hrun. rewrite <- Hrun.
    vm_compute. reflexivity. }
  subst ok.
  destruct (@plan_cycle_publishes costmap_2d_values axis_msglib (scripted_engine 1)
              cached_planner this' costly_world (pose_at 0 1) (pose_at 6 0) plan' Hrun)
    as (rough_plan & stats & Hpub & _ & _ & Hsize & _).
  exists plan', rough_plan, stats. split; [exact Hpub | exact Hsize].
Defined.
